(** * CineMatch (movie_randomizer.py): data normalisation, filtering, selection

    A shallow embedding of the logical core of [movie_randomizer.py]:
    the two loaders ([load_mock_data], [load_kaggle_data]), and the three
    stages of [main] that matter for the catalogue (data-source fallback,
    filtering, the randomize button).

    Modelling conventions.
    - A pandas DataFrame is the list of its rows, in row order.  A cell that
      pandas shows as NaN (a missing CSV field, a failed extraction, a mean
      over no value) is [None].
    - Text is [string], the UTF-8 bytes of a Python [str].  The
      regular-expression class [\d] is the Unicode decimal digits (a
      character of several bytes counts as one), while [pd.to_numeric]
      reads ASCII digits only.
    - A number of the program is a rational [Q] (every float64 is one).
      The two floating-point operations of the loader, the mean of a group
      and [round(1)], are arguments [fmean] and [fround1] of the loader
      ([process_kaggle_by], [load_kaggle_data_by]); [process_kaggle] and
      [load_kaggle_data] are the loader with the exact mean and the exact
      rounding of module [Rating] in their place.
    - What [pd.read_csv] returns is a file of lines whose title, genres and
      rating fields are text, a number or empty; the loader raises where
      pandas does when a column has not the type the code expects.  The id
      columns hold integers.
    - The groupby of the ratings table is a finite map from movie id to the
      rating cells of the group. *)

From Stdlib Require Import ZArith QArith Qround Qabs Lqa String Ascii List Bool.
From stdpp Require Import base option list gmap strings sorting.

Import ListNotations.
Local Open Scope string_scope.
Local Open Scope Z_scope.

(** ** Text helpers used by the loaders *)

Module Text.

(** Python's [s.split(sep)] for a one-character separator: every occurrence
    of [sep] cuts; the result always has one more field than there are
    separators (so splitting the empty string gives one empty field). *)
Fixpoint split (sep : ascii) (s : string) : list string :=
  match s with
  | EmptyString => [EmptyString]
  | String c rest =>
      if Ascii.eqb c sep then EmptyString :: split sep rest
      else match split sep rest with
           | w :: ws => String c w :: ws
           | [] => [String c EmptyString]
           end
  end.

(** Python's [sep.join(fields)]. *)
Fixpoint join (sep : ascii) (fields : list string) : string :=
  match fields with
  | [] => EmptyString
  | [w] => w
  | w :: ws => w ++ String sep (join sep ws)
  end.

(** An ASCII digit, and its value. *)
Definition is_digit (c : ascii) : bool :=
  let n := nat_of_ascii c in (48 <=? n)%nat && (n <=? 57)%nat.

Definition digit_val (c : ascii) : Z := Z.of_nat (nat_of_ascii c) - 48.

(** The payload of a UTF-8 continuation byte. *)
Definition continuation (c : ascii) : option N :=
  let b := N_of_ascii c in
  if ((128 <=? b) && (b <? 192))%N then Some (b - 128)%N else None.

(** The first character of a text: its code point, its bytes, and the text
    after it. *)
Definition next_char (s : string) : option (N * string * string) :=
  match s with
  | EmptyString => None
  | String c0 r0 =>
      let b0 := N_of_ascii c0 in
      if (b0 <? 128)%N then Some (b0, String c0 EmptyString, r0)
      else if (b0 <? 192)%N then None
      else if (b0 <? 224)%N then
        match r0 with
        | String c1 r1 =>
            match continuation c1 with
            | Some x1 =>
                Some (((b0 - 192) * 64 + x1)%N, String c0 (String c1 EmptyString), r1)
            | None => None
            end
        | _ => None
        end
      else if (b0 <? 240)%N then
        match r0 with
        | String c1 (String c2 r2) =>
            match continuation c1, continuation c2 with
            | Some x1, Some x2 =>
                Some ((((b0 - 224) * 64 + x1) * 64 + x2)%N,
                      String c0 (String c1 (String c2 EmptyString)), r2)
            | _, _ => None
            end
        | _ => None
        end
      else if (b0 <? 248)%N then
        match r0 with
        | String c1 (String c2 (String c3 r3)) =>
            match continuation c1, continuation c2, continuation c3 with
            | Some x1, Some x2, Some x3 =>
                Some (((((b0 - 240) * 64 + x1) * 64 + x2) * 64 + x3)%N,
                      String c0 (String c1 (String c2 (String c3 EmptyString))), r3)
            | _, _, _ => None
            end
        | _ => None
        end
      else None
  end.

(** The decimal digits of Unicode (general category Nd, Unicode 14.0 as in
    CPython 3.11): they come in runs of ten, listed here by the code point
    of the zero of each run.  The first run is the ASCII digits. *)
Definition DECIMAL_ZEROS : list N :=
  [48; 1632; 1776; 1984; 2406; 2534; 2662; 2790; 2918; 3046; 3174; 3302;
   3430; 3558; 3664; 3792; 3872; 4160; 4240; 6112; 6160; 6470; 6608; 6784;
   6800; 6992; 7088; 7232; 7248; 42528; 43216; 43264; 43472; 43504; 43600;
   44016; 65296; 66720; 68912; 69734; 69872; 69942; 70096; 70384; 70736;
   70864; 71248; 71360; 71472; 71904; 72016; 72784; 73040; 73120; 92768;
   92864; 93008; 120782; 120792; 120802; 120812; 120822; 123200; 123632;
   125264; 130032]%N.

Definition in_run (cp zero : N) : bool := ((zero <=? cp) && (cp <? zero + 10))%N.

(** [\d] on a code point. *)
Definition is_decimal (cp : N) : bool := existsb (in_run cp) DECIMAL_ZEROS.

(** [\d] at the start of a text: the bytes of the digit and the text after
    it. *)
Definition take_decimal (s : string) : option (string * string) :=
  match next_char s with
  | Some (cp, bytes, rest) => if is_decimal cp then Some (bytes, rest) else None
  | None => None
  end.

(** The pattern [\((\d{4})\)] anchored at the start of [s]; the result is
    the captured group. *)
Definition match_year_here (s : string) : option string :=
  match s with
  | String o s1 =>
      if Ascii.eqb o "(" then
        match take_decimal s1 with
        | Some (a, s2) =>
            match take_decimal s2 with
            | Some (b, s3) =>
                match take_decimal s3 with
                | Some (c, s4) =>
                    match take_decimal s4 with
                    | Some (d, String z _) =>
                        if Ascii.eqb z ")" then Some (a ++ b ++ c ++ d)%string
                        else None
                    | _ => None
                    end
                | None => None
                end
            | None => None
            end
        | None => None
        end
      else None
  | EmptyString => None
  end.

(** [str.extract(r'\((\d{4})\)')] on one cell: the group of the leftmost
    match, or nothing. *)
Fixpoint extract_year (s : string) : option string :=
  match match_year_here s with
  | Some y => Some y
  | None =>
      match s with
      | EmptyString => None
      | String _ rest => extract_year rest
      end
  end.

(** [pd.to_numeric(..., errors='coerce')] on the cells it is given here,
    which are NaN or the four digits captured by the extraction: a run of
    ASCII digits is read in base ten; a capture with any other digit is
    not a number to pandas and is coerced to NaN. *)
Fixpoint digits_value (acc : Z) (s : string) : option Z :=
  match s with
  | EmptyString => Some acc
  | String c rest =>
      if is_digit c then digits_value (10 * acc + digit_val c) rest else None
  end.

Definition to_numeric (s : string) : option Z :=
  match s with
  | EmptyString => None
  | _ => digits_value 0 s
  end.

End Text.

(** ** Exact decimal arithmetic for ratings *)

Module Rating.

(** [rint]: round to the nearest integer, ties to the even one. *)
Definition rint (q : Q) : Z :=
  let n := Qnum q in
  let d := Zpos (Qden q) in
  let fl := n / d in
  let r2 := 2 * (n mod d) in
  if r2 <? d then fl
  else if d <? r2 then fl + 1
  else if Z.even fl then fl else fl + 1.

(** [x.round(1)] = [rint(x * 10) / 10]. *)
Definition round1 (q : Q) : Q := Qred (rint (q * 10) # 10).

Definition sum (l : list Q) : Q := foldr Qplus 0%Q l.

(** Arithmetic mean of a non-empty list of values. *)
Definition mean (l : list Q) : Q :=
  Qred (sum l / inject_Z (Z.of_nat (length l))).

(** [Series.mean()] with the default [skipna=True]: missing cells are
    skipped; the mean of no value is NaN.  [fmean] is the mean of a
    non-empty list of values. *)
Definition series_mean_by (fmean : list Q -> Q) (cells : list (option Q)) : option Q :=
  match omap id cells with
  | [] => None
  | vs => Some (fmean vs)
  end.

Definition series_mean (cells : list (option Q)) : option Q :=
  match omap id cells with
  | [] => None
  | vs => Some (mean vs)
  end.

End Rating.

(** ** Data model *)

(** One row of the catalogue DataFrame.  The demo table has no [movieId]
    column; every other column is present in both sources. *)
Record Row := mkRow {
  movieId : option Z;
  title : option string;
  year : option Z;
  genres : option string;
  genres_list : option (list string);
  avg_rating : option Q;
  overview : option string
}.

Abbreviation DataFrame := (list Row).

(** An entry of the [MOCK_MOVIES] literal. *)
Record MockMovie := mkMock {
  mock_title : string;
  mock_year : Z;
  mock_genres : string;
  mock_avg_rating : Q;
  mock_overview : string
}.

(** A row of [movies.csv]; [raw_overview] is read only when the file has an
    [overview] column. *)
Record MovieRaw := mkMovieRaw {
  raw_movieId : Z;
  raw_title : option string;
  raw_genres : option string;
  raw_overview : option string
}.

Record MoviesCsv := mkMoviesCsv {
  has_overview_column : bool;
  movie_rows : list MovieRaw
}.

(** A row of [ratings.csv]. *)
Record RatingRaw := mkRatingRaw {
  rating_movieId : Z;
  rating : option Q
}.

(** ** The embedded sample set *)

Definition MOCK_MOVIES : list MockMovie := [
  mkMock "The Dark Knight" 2008 "Action|Crime|Drama" (90 # 10)
    "When the menace known as the Joker wreaks havoc and chaos on the people of Gotham, Batman must accept one of the greatest psychological and physical tests of his ability to fight injustice.";
  mkMock "Inception" 2010 "Action|Adventure|Sci-Fi" (88 # 10)
    "A thief who steals corporate secrets through the use of dream-sharing technology is given the inverse task of planting an idea into the mind of a C.E.O.";
  mkMock "Interstellar" 2014 "Adventure|Drama|Sci-Fi" (86 # 10)
    "A team of explorers travel through a wormhole in space in an attempt to ensure humanity's survival.";
  mkMock "Parasite" 2019 "Drama|Thriller" (86 # 10)
    "Greed and class discrimination threaten the newly formed symbiotic relationship between the wealthy Park family and the destitute Kim clan.";
  mkMock "Spirited Away" 2001 "Animation|Adventure|Family" (86 # 10)
    "During her family's move to the suburbs, a sullen 10-year-old girl wanders into a world ruled by gods, witches, and spirits.";
  mkMock "Pulp Fiction" 1994 "Crime|Drama" (89 # 10)
    "The lives of two mob hitmen, a boxer, a gangster and his wife, and a pair of diner bandits intertwine in four tales of violence and redemption.";
  mkMock "The Matrix" 1999 "Action|Sci-Fi" (87 # 10)
    "When a beautiful stranger leads computer hacker Neo to a forbidding underworld, he discovers the shocking truth--the life he knows is the elaborate deception of an evil cyber-intelligence.";
  mkMock "Forrest Gump" 1994 "Drama|Romance" (88 # 10)
    "The presidencies of Kennedy and Johnson, the events of Vietnam, Watergate and other historical events unfold through the perspective of an Alabama man with an IQ of 75.";
  mkMock "Everything Everywhere All At Once" 2022 "Action|Adventure|Comedy" (80 # 10)
    "A middle-aged Chinese immigrant is swept up into an insane adventure in which she alone can save the existence by exploring other universes.";
  mkMock "Dune" 2021 "Action|Adventure|Sci-Fi" (80 # 10)
    "A noble family becomes embroiled in a war for control over the galaxy's most valuable asset while its heir becomes troubled by visions of a dark future.";
  mkMock "The Godfather" 1972 "Crime|Drama" (92 # 10)
    "The aging patriarch of an organized crime dynasty transfers control of his clandestine empire to his reluctant son.";
  mkMock "Schindler's List" 1993 "Biography|Drama|History" (89 # 10)
    "In German-occupied Poland during World War II, industrialist Oskar Schindler gradually becomes concerned for his Jewish workforce after witnessing their persecution by the Nazis.";
  mkMock "Whiplash" 2014 "Drama|Music" (85 # 10)
    "A promising young drummer enrolls at a cut-throat music conservatory where his dreams of greatness are mentored by an instructor who will stop at nothing to realize a student's potential."
].

(** ** Errors of the external path *)

Inductive Exception :=
| ImportError (msg : string)
| DownloadError
| ReadError (file : string)
| AttributeError (msg : string)
| TypeError (msg : string).

Inductive result (A : Type) :=
| Ok (a : A)
| Raise (e : Exception).
Arguments Ok {A} a.
Arguments Raise {A} e.

(** Sequencing: the first exception raised ends the computation. *)
#[export] Instance result_bind : MBind result := fun A B k r =>
  match r with
  | Ok a => k a
  | Raise e => Raise e
  end.

#[export] Instance result_ret : MRet result := fun A a => Ok a.

(** A field of a file as [pd.read_csv] returns it: empty (NaN), a number,
    or text.  pandas types a column as a whole: a column read from a file
    holds numbers and NaN only (dtype int64 or float64), or text and NaN
    only (dtype object). *)
Inductive Cell :=
| CellNaN
| CellNum (q : Q)
| CellText (s : string).

(** A line of [movies.csv] and of [ratings.csv] as read. *)
Record MovieLine := mkMovieLine {
  line_movieId : Z;
  line_title : Cell;
  line_genres : Cell;
  line_overview : option string
}.

Record MoviesFile := mkMoviesFile {
  file_has_overview : bool;
  movie_lines : list MovieLine
}.

Record RatingLine := mkRatingLine {
  rline_movieId : Z;
  rline_rating : Cell
}.

(** What the outside world answers to [load_kaggle_data]: whether the
    [kagglehub] import succeeded, what [dataset_download] returns, and what
    [read_csv] returns for each of the two files under the downloaded path. *)
Record KaggleWorld := mkWorld {
  KAGGLE_AVAILABLE : bool;
  dataset_download : result string;
  read_movies_csv : string -> result MoviesFile;
  read_ratings_csv : string -> result (list RatingLine)
}.

Definition is_text (c : Cell) : bool :=
  match c with
  | CellText _ => true
  | _ => false
  end.

(** What the [.str] methods see of a cell: its text, NaN for anything else. *)
Definition cell_text (c : Cell) : option string :=
  match c with
  | CellText s => Some s
  | _ => None
  end.

Definition cell_number (c : Cell) : option Q :=
  match c with
  | CellNum q => Some q
  | _ => None
  end.

(** A column that pandas holds as text: the column of a table without
    lines, or one with a text field.  A column of a table with lines whose
    fields are all empty or numbers is a column of numbers. *)
Definition text_column (column : list Cell) : bool :=
  match column with
  | [] => true
  | _ => existsb is_text column
  end.

Definition number_column (column : list Cell) : bool :=
  negb (existsb is_text column).

(** [series.str]: only a column of text has the accessor. *)
Definition str_accessor (column : list Cell) : result unit :=
  if text_column column then Ok tt
  else Raise (AttributeError "Can only use .str accessor with string values!").

(** [.mean()] on the groups of a column: a column with text in it cannot be
    averaged. *)
Definition mean_accepts (column : list Cell) : result unit :=
  if number_column column then Ok tt
  else Raise (TypeError "agg function failed [how->mean,dtype->object]").

(** The lines as the typed rows the loader works on. *)
Definition movie_of_line (l : MovieLine) : MovieRaw :=
  {| raw_movieId := line_movieId l;
     raw_title := cell_text (line_title l);
     raw_genres := cell_text (line_genres l);
     raw_overview := line_overview l |}.

Definition movies_of_file (f : MoviesFile) : MoviesCsv :=
  {| has_overview_column := file_has_overview f;
     movie_rows := map movie_of_line (movie_lines f) |}.

Definition rating_of_line (l : RatingLine) : RatingRaw :=
  {| rating_movieId := rline_movieId l;
     rating := cell_number (rline_rating l) |}.

(** ** load_mock_data *)

Definition PIPE : ascii := "|"%char.

(** [df['genres'].str.split('|')] on one cell. *)
Definition split_genres (cell : option string) : option (list string) :=
  Text.split PIPE <$> cell.

Definition mock_row (m : MockMovie) : Row :=
  {| movieId := None;
     title := Some (mock_title m);
     year := Some (mock_year m);
     genres := Some (mock_genres m);
     genres_list := split_genres (Some (mock_genres m));
     avg_rating := Some (mock_avg_rating m);
     overview := Some (mock_overview m) |}.

Definition load_mock_data : DataFrame := map mock_row MOCK_MOVIES.

(** ** load_kaggle_data *)

Definition DEFAULT_OVERVIEW : string :=
  "No plot summary available for this title.".

(** [movies['title'].str.extract(...)] followed by [pd.to_numeric]. *)
Definition year_of_title (cell : option string) : option Z :=
  t ← cell; y ← Text.extract_year t; Text.to_numeric y.

(** [ratings.groupby('movieId')['rating']]: the rating cells of each movie
    id that occurs in the table, in row order. *)
Definition groupby_movieId (ratings : list RatingRaw) : gmap Z (list (option Q)) :=
  foldr (fun r acc =>
           <[rating_movieId r := rating r :: default [] (acc !! rating_movieId r)]> acc)
        ∅ ratings.

(** [.mean().round(1)] on every group, with the mean [fmean] and the
    rounding [fround1]. *)
Definition avg_ratings_by (fmean : list Q -> Q) (fround1 : Q -> Q)
  (ratings : list RatingRaw) : gmap Z (option Q) :=
  (fun cells => fround1 <$> Rating.series_mean_by fmean cells) <$> groupby_movieId ratings.

Definition avg_ratings (ratings : list RatingRaw) : gmap Z (option Q) :=
  (fun cells => Rating.round1 <$> Rating.series_mean cells) <$> groupby_movieId ratings.

(** One movie of [pd.merge(movies, avg_ratings, on='movieId')] with the
    [year] and [genres_list] columns: the inner join keeps a movie only if
    its id is a key of [avg_ratings]. *)
Definition merge_row (avg : gmap Z (option Q)) (m : MovieRaw) : option Row :=
  a ← avg !! raw_movieId m;
  Some {| movieId := Some (raw_movieId m);
          title := raw_title m;
          year := year_of_title (raw_title m);
          genres := raw_genres m;
          genres_list := split_genres (raw_genres m);
          avg_rating := a;
          overview := raw_overview m |}.

(** [df.dropna(subset=['year', 'avg_rating'])] *)
Definition notna {A} (cell : option A) : bool :=
  match cell with Some _ => true | None => false end.

Definition dropna (d : DataFrame) : DataFrame :=
  List.filter (fun r => notna (year r) && notna (avg_rating r)) d.

Definition set_overview (text : string) (r : Row) : Row :=
  {| movieId := movieId r; title := title r; year := year r;
     genres := genres r; genres_list := genres_list r;
     avg_rating := avg_rating r; overview := Some text |}.

(** The body of [load_kaggle_data] on tables whose columns have the
    expected types. *)
Definition process_kaggle_by (fmean : list Q -> Q) (fround1 : Q -> Q)
  (movies : MoviesCsv) (ratings : list RatingRaw) : DataFrame :=
  let merged := omap (merge_row (avg_ratings_by fmean fround1 ratings)) (movie_rows movies) in
  let cleaned := dropna merged in
  if has_overview_column movies then cleaned
  else map (set_overview DEFAULT_OVERVIEW) cleaned.

Definition process_kaggle (movies : MoviesCsv) (ratings : list RatingRaw) : DataFrame :=
  let merged := omap (merge_row (avg_ratings ratings)) (movie_rows movies) in
  let cleaned := dropna merged in
  if has_overview_column movies then cleaned
  else map (set_overview DEFAULT_OVERVIEW) cleaned.

(** [load_kaggle_data]: import, download, the two reads, then the body.
    The body raises at line 59 when the title column has no [.str], at
    line 63 when the rating column cannot be averaged, at line 70 when the
    genres column has no [.str]. *)
Definition load_kaggle_data_by (fmean : list Q -> Q) (fround1 : Q -> Q)
  (w : KaggleWorld) : result DataFrame :=
  if negb (KAGGLE_AVAILABLE w) then Raise (ImportError "kagglehub not installed")
  else
    path ← dataset_download w;
    movies ← read_movies_csv w (path ++ "/movies.csv")%string;
    ratings ← read_ratings_csv w (path ++ "/ratings.csv")%string;
    _ ← str_accessor (map line_title (movie_lines movies));
    _ ← mean_accepts (map rline_rating ratings);
    _ ← str_accessor (map line_genres (movie_lines movies));
    mret (process_kaggle_by fmean fround1
            (movies_of_file movies) (map rating_of_line ratings)).

Definition load_kaggle_data (w : KaggleWorld) : result DataFrame :=
  load_kaggle_data_by Rating.mean Rating.round1 w.

(** ** main: choosing and loading the data source *)

Inductive DataSource := DemoData | KaggleDataset.

(** What [main] shows to the user through [st.success], [st.error] and
    [st.warning]. *)
Inductive Notice :=
| StSuccess (loaded : nat)
| StError (text : string)
| StWarning (text : string).

(** Lines 101-112: the demo table, or the external one with the demo table
    as the handler of any [Exception]. *)
Definition load_data (w : KaggleWorld) (data_source : DataSource)
  : DataFrame * list Notice :=
  match data_source with
  | DemoData => (load_mock_data, [])
  | KaggleDataset =>
      match load_kaggle_data w with
      | Ok d => (d, [StSuccess (length d)])
      | Raise _ =>
          (load_mock_data,
           [StError "Could not load Kaggle data. Switched to Demo Mode."])
      end
  end.

(** ** main: the sidebar *)

Record FilterSpec := mkSpec {
  selected_genre : string;
  min_rating : Q;
  selected_years : Z * Z
}.

Definition ANY : string := "Any".

(** Lower end of the "Min Rating" slider, [st.slider(_, 1.0, 10.0, 7.0, 0.5)]. *)
Definition MIN_RATING_LOWEST : Q := 1.
Definition MIN_RATING_HIGHEST : Q := 10.
Definition MIN_RATING_DEFAULT : Q := 7.

(** [Series.min()] and [Series.max()]: NaN cells are skipped. *)
Definition series_min (cells : list (option Z)) : option Z :=
  match omap id cells with
  | [] => None
  | y :: ys => Some (foldr Z.min y ys)
  end.

Definition series_max (cells : list (option Z)) : option Z :=
  match omap id cells with
  | [] => None
  | y :: ys => Some (foldr Z.max y ys)
  end.

(** [min_year] and [max_year], the ends of the "Year Range" slider.  [main]
    stops before the sidebar when the table is empty. *)
Definition year_span (d : DataFrame) : option (Z * Z) :=
  lo ← series_min (map year d);
  hi ← series_max (map year d);
  Some (lo, hi).

(** ** main: filtering *)

(** [df['avg_rating'] >= min_rating]; a comparison with NaN is false. *)
Definition rating_ok (spec : FilterSpec) (r : Row) : bool :=
  match avg_rating r with
  | Some a => Qle_bool (min_rating spec) a
  | None => false
  end.

(** [df['year'] >= selected_years[0]] *)
Definition year_from_ok (spec : FilterSpec) (r : Row) : bool :=
  match year r with
  | Some y => fst (selected_years spec) <=? y
  | None => false
  end.

(** [df['year'] <= selected_years[1]] *)
Definition year_to_ok (spec : FilterSpec) (r : Row) : bool :=
  match year r with
  | Some y => y <=? snd (selected_years spec)
  | None => false
  end.

(** [lambda x: selected_genre in x if isinstance(x, list) else False] *)
Definition genre_in (g : string) (r : Row) : bool :=
  match genres_list r with
  | Some tags => existsb (String.eqb g) tags
  | None => false
  end.

(** The two variables of [main] that the filtering stage reads and writes. *)
Record Locals := mkLocals {
  df : DataFrame;
  filtered_df : DataFrame
}.

(** Lines 137-146: one boolean mask for rating and years, then, unless the
    genre is "Any", a second selection on the genre. *)
Definition filtering (spec : FilterSpec) (s : Locals) : Locals :=
  let s1 :=
    {| df := df s;
       filtered_df :=
         List.filter (fun r => rating_ok spec r && year_from_ok spec r && year_to_ok spec r)
                     (df s) |} in
  if negb (String.eqb (selected_genre spec) ANY) then
    {| df := df s1;
       filtered_df := List.filter (genre_in (selected_genre spec)) (filtered_df s1) |}
  else s1.

(** The filtered table for a catalogue. *)
Definition filter_catalog (spec : FilterSpec) (d : DataFrame) : DataFrame :=
  filtered_df (filtering spec {| df := d; filtered_df := [] |}).

(** ** main: the randomize button *)

Record SessionState := mkSession {
  selected_movie : option Row
}.

(** [filtered_df.sample(1).iloc[0]]: the row at the position that the
    library's generator draws from [range(len(filtered_df))].  The draw is
    an input of the model; the library never hands out a position outside
    that range. *)
Definition sample1 (d : DataFrame) (draw : nat) : option Row := d !! draw.

(** Lines 157-163, the body run when the button is pressed. *)
Definition randomize (filtered : DataFrame) (draw : nat) (st : SessionState)
  : SessionState * list Notice :=
  match filtered with
  | [] => ({| selected_movie := None |}, [StWarning "No movies found!"])
  | _ => ({| selected_movie := sample1 filtered draw |}, [])
  end.

(** A session: the button pressed once per draw, the state threaded
    through. *)
Definition press_all (filtered : DataFrame) (draws : list nat) (st : SessionState)
  : SessionState :=
  foldl (fun s d => fst (randomize filtered d s)) st draws.

(** ** Vocabulary of the properties *)

(** The rows of the ratings table for one movie id, and the values among
    their rating cells. *)
Definition rows_of_movie (id : Z) (ratings : list RatingRaw) : list RatingRaw :=
  List.filter (fun x => rating_movieId x =? id) ratings.

Definition ratings_of (id : Z) (ratings : list RatingRaw) : list Q :=
  omap rating (rows_of_movie id ratings).

(** The three predicates of the filter, each on its own. *)
Definition rating_pred (spec : FilterSpec) (r : Row) : bool := rating_ok spec r.

Definition year_pred (spec : FilterSpec) (r : Row) : bool :=
  year_from_ok spec r && year_to_ok spec r.

Definition genre_pred (spec : FilterSpec) (r : Row) : bool :=
  String.eqb (selected_genre spec) ANY || genre_in (selected_genre spec) r.

Definition predicates (spec : FilterSpec) : list (Row -> bool) :=
  [rating_pred spec; year_pred spec; genre_pred spec].

(** Selecting with one predicate after the other, in the order given. *)
Definition apply_in_order (ps : list (Row -> bool)) (d : DataFrame) : DataFrame :=
  foldl (fun acc p => List.filter p acc) d ps.

(** The filter that the sidebar offers as the widest: any genre, the lowest
    slider rating, the whole span of years of the table. *)
Definition widest_spec (d : DataFrame) : option FilterSpec :=
  span ← year_span d;
  Some {| selected_genre := ANY; min_rating := MIN_RATING_LOWEST;
          selected_years := span |}.

(** Typed rows written back as the lines of a file. *)
Definition text_cell (o : option string) : Cell :=
  match o with
  | Some s => CellText s
  | None => CellNaN
  end.

Definition number_cell (o : option Q) : Cell :=
  match o with
  | Some q => CellNum q
  | None => CellNaN
  end.

Definition line_of_movie (m : MovieRaw) : MovieLine :=
  {| line_movieId := raw_movieId m;
     line_title := text_cell (raw_title m);
     line_genres := text_cell (raw_genres m);
     line_overview := raw_overview m |}.

Definition file_of_movies (movies : MoviesCsv) : MoviesFile :=
  {| file_has_overview := has_overview_column movies;
     movie_lines := map line_of_movie (movie_rows movies) |}.

Definition line_of_rating (x : RatingRaw) : RatingLine :=
  {| rline_movieId := rating_movieId x;
     rline_rating := number_cell (rating x) |}.

(** A world whose dataset holds one film, rated once with half a star. *)
Definition low_rated_world : KaggleWorld :=
  {| KAGGLE_AVAILABLE := true;
     dataset_download := Ok "/kaggle/input";
     read_movies_csv := fun _ =>
       Ok (file_of_movies
             {| has_overview_column := false;
                movie_rows := [mkMovieRaw 1 (Some "Plan 9 from Outer Space (1959)")
                                          (Some "Horror|Sci-Fi") None] |});
     read_ratings_csv := fun _ => Ok [mkRatingLine 1 (CellNum (1 # 2))] |}.

Definition low_rated_catalog : DataFrame :=
  [ {| movieId := Some 1;
       title := Some "Plan 9 from Outer Space (1959)";
       year := Some 1959;
       genres := Some "Horror|Sci-Fi";
       genres_list := Some ["Horror"; "Sci-Fi"];
       avg_rating := Some (1 # 2);
       overview := Some DEFAULT_OVERVIEW |} ].

(** A movies table that has an [overview] column with one empty cell. *)
Definition overview_gap_movies : MoviesCsv :=
  {| has_overview_column := true;
     movie_rows := [mkMovieRaw 1 (Some "Toy Story (1995)") (Some "Animation|Comedy")
                               (Some "A cowboy doll is threatened by a new toy.");
                    mkMovieRaw 2 (Some "Heat (1995)") (Some "Action|Crime") None] |}.

Definition overview_gap_ratings : list RatingRaw :=
  [mkRatingRaw 1 (Some (4 # 1)); mkRatingRaw 2 (Some (7 # 2)); mkRatingRaw 2 (Some (4 # 1))].

(** A world without the [kagglehub] package. *)
Definition offline_world : KaggleWorld :=
  {| KAGGLE_AVAILABLE := false;
     dataset_download := Raise DownloadError;
     read_movies_csv := fun f => Raise (ReadError f);
     read_ratings_csv := fun f => Raise (ReadError f) |}.

(** A world in which the download works and the ratings file is unreadable. *)
Definition broken_ratings_world : KaggleWorld :=
  {| KAGGLE_AVAILABLE := true;
     dataset_download := Ok "/kaggle/input";
     read_movies_csv := fun _ => Ok (file_of_movies overview_gap_movies);
     read_ratings_csv := fun f => Raise (ReadError f) |}.

(** A small healthy dataset: one film without a year in its title, one
    without any rating, one whose only rating cell is empty. *)
Definition sample_movies : MoviesCsv :=
  {| has_overview_column := false;
     movie_rows := [mkMovieRaw 1 (Some "Toy Story (1995)") (Some "Action|Comedy") None;
                    mkMovieRaw 2 (Some "Untitled Project") (Some "Drama") None;
                    mkMovieRaw 3 (Some "Heat (1995)") (Some "Action|Crime") None;
                    mkMovieRaw 4 (Some "Casino (1995)") (Some "Crime|Drama") None] |}.

Definition sample_ratings : list RatingRaw :=
  [mkRatingRaw 1 (Some (4 # 1)); mkRatingRaw 2 (Some (3 # 1)); mkRatingRaw 1 (Some (7 # 2));
   mkRatingRaw 4 None; mkRatingRaw 1 (Some (4 # 1))].

Definition sample_world : KaggleWorld :=
  {| KAGGLE_AVAILABLE := true;
     dataset_download := Ok "/kaggle/input";
     read_movies_csv := fun _ => Ok (file_of_movies sample_movies);
     read_ratings_csv := fun _ => Ok (map line_of_rating sample_ratings) |}.

Definition toy_story_row : Row :=
  {| movieId := Some 1;
     title := Some "Toy Story (1995)";
     year := Some 1995;
     genres := Some "Action|Comedy";
     genres_list := Some ["Action"; "Comedy"];
     avg_rating := Some (19 # 5);
     overview := Some DEFAULT_OVERVIEW |}.

Definition godfather_row : Row :=
  mock_row (mkMock "The Godfather" 1972 "Crime|Drama" (92 # 10)
    "The aging patriarch of an organized crime dynasty transfers control of his clandestine empire to his reluctant son.").

(** ** The rest of main: data-source default, sidebar, result card *)

(** Python truth value of what [os.environ.get] returns: a variable that
    is not set ([None]) and the empty string are false. *)
Definition truthy (v : option string) : bool :=
  match v with
  | Some s => negb (String.eqb s "")
  | None => false
  end.

(** [a and b]: [a] itself when it is false, [b] otherwise. *)
Definition py_and (a b : option string) : option string :=
  if truthy a then b else a.

(** Line 92, over the variables that are set in [os.environ]. *)
Definition has_kaggle_auth (environ : gmap string string) : option string :=
  py_and (environ !! "KAGGLE_USERNAME") (environ !! "KAGGLE_KEY").

Definition DATA_SOURCES : list DataSource := [DemoData; KaggleDataset].

(** Lines 94-98: the entry of the radio button that is selected at first. *)
Definition default_index (environ : gmap string string) : nat :=
  if negb (truthy (has_kaggle_auth environ)) then 0%nat else 1%nat.

Definition default_data_source (environ : gmap string string) : option DataSource :=
  DATA_SOURCES !! default_index environ.

(** Lines 114-115: [if df.empty: st.stop()]. *)
Definition stops (d : DataFrame) : bool :=
  match d with
  | [] => true
  | _ => false
  end.

(** Byte-wise lexicographic order, the order of Python's [sorted] on text. *)
Definition str_le (a b : string) : Prop := String.leb a b = true.

#[export] Instance str_le_dec : RelDecision str_le.
Proof. intros a b. unfold str_le. apply _. Defined.

(** [[g for sublist in df['genres_list'] for g in sublist]]: the tags of all
    rows in row order; iterating over a NaN cell raises [TypeError], which
    nothing in [main] catches ([None]). *)
Fixpoint flatten_genres (cells : list (option (list string))) : option (list string) :=
  match cells with
  | [] => Some []
  | None :: _ => None
  | Some tags :: rest =>
      match flatten_genres rest with
      | Some more => Some (tags ++ more)%list
      | None => None
      end
  end.

(** [sorted(list(set(tags)))]: the distinct tags in ascending order. *)
Definition sorted_set (tags : list string) : list string :=
  merge_sort str_le (remove_dups tags).

(** [l.remove(x)]: drops the first occurrence. *)
Fixpoint list_remove (x : string) (l : list string) : list string :=
  match l with
  | [] => []
  | y :: ys => if String.eqb y x then ys else y :: list_remove x ys
  end.

Definition NO_GENRES : string := "no genres listed".

(** Lines 123-124. *)
Definition all_genres (d : DataFrame) : option (list string) :=
  match flatten_genres (map genres_list d) with
  | Some tags =>
      let sorted := sorted_set tags in
      Some (if existsb (String.eqb NO_GENRES) sorted
            then list_remove NO_GENRES sorted else sorted)
  | None => None
  end.

(** Line 125: the entries of the "Genre" select box. *)
Definition genre_options (d : DataFrame) : option (list string) :=
  match all_genres d with
  | Some gs => Some (ANY :: gs)
  | None => None
  end.

(** Line 154: the "Movies Found" metric. *)
Definition movies_found (s : Locals) : nat := length (filtered_df s).

(** [s.replace(old, new)] for a one-character [old]. *)
Fixpoint str_replace (old : ascii) (new : string) (s : string) : string :=
  match s with
  | EmptyString => EmptyString
  | String c rest =>
      if Ascii.eqb c old then (new ++ str_replace old new rest)%string
      else String c (str_replace old new rest)
  end.

(** Line 171, the genre part of the caption: [movie['genres'].replace('|', ', ')].
    A NaN cell has no [replace] ([AttributeError], [None]). *)
Definition genres_caption (movie : Row) : option string :=
  str_replace PIPE ", " <$> genres movie.



(** ** Vocabulary of the further properties *)

(** Python's [sep.join(fields)] for a separator of any length. *)
Fixpoint join_with (sep : string) (fields : list string) : string :=
  match fields with
  | [] => EmptyString
  | [w] => w
  | w :: ws => (w ++ sep ++ join_with sep ws)%string
  end.

(** [c in s] for a character. *)
Fixpoint contains (c : ascii) (s : string) : bool :=
  match s with
  | EmptyString => false
  | String x rest => Ascii.eqb x c || contains c rest
  end.




(** A text of ASCII characters only. *)
Fixpoint is_ascii (s : string) : bool :=
  match s with
  | EmptyString => true
  | String c rest => (N_of_ascii c <? 128)%N && is_ascii rest
  end.

(** A title whose first group is written with Arabic-Indic digits. *)
Definition title_with_arabic_year : string := "Film (١٩٩٥) (1996)".

(** A world whose ratings file has text in the rating column, and one whose
    movies file has a line and no title at all. *)
Definition text_rating_world : KaggleWorld :=
  {| KAGGLE_AVAILABLE := true;
     dataset_download := Ok "/kaggle/input";
     read_movies_csv := fun _ =>
       Ok {| file_has_overview := false;
             movie_lines := [mkMovieLine 1 (CellText "Toy Story (1995)")
                                         (CellText "Animation|Comedy") None] |};
     read_ratings_csv := fun _ =>
       Ok [mkRatingLine 1 (CellText "4.0"); mkRatingLine 1 (CellText "four")] |}.

Definition missing_titles_world : KaggleWorld :=
  {| KAGGLE_AVAILABLE := true;
     dataset_download := Ok "/kaggle/input";
     read_movies_csv := fun _ =>
       Ok {| file_has_overview := false;
             movie_lines := [mkMovieLine 1 CellNaN (CellText "Drama") None] |};
     read_ratings_csv := fun _ => Ok [mkRatingLine 1 (CellNum (4 # 1))] |}.

(** The environment of a machine with both Kaggle variables set, and one
    where the key is set to the empty string. *)
Definition environ_with_keys : gmap string string :=
  <["KAGGLE_USERNAME" := "ada"]> (<["KAGGLE_KEY" := "0123abcd"]> ∅).

Definition environ_empty_key : gmap string string :=
  <["KAGGLE_USERNAME" := "ada"]> (<["KAGGLE_KEY" := ""]> ∅).

(** A world whose tables are read and leave no row: the only film has no
    year in its title. *)
Definition empty_catalog_world : KaggleWorld :=
  {| KAGGLE_AVAILABLE := true;
     dataset_download := Ok "/kaggle/input";
     read_movies_csv := fun _ =>
       Ok (file_of_movies
             {| has_overview_column := false;
                movie_rows := [mkMovieRaw 7 (Some "Untitled Project") (Some "Drama") None] |});
     read_ratings_csv := fun _ => Ok [mkRatingLine 7 (CellNum (3 # 1))] |}.

(** A catalogue with a row whose genres cell is empty. *)
Definition catalog_with_gap : DataFrame :=
  [ toy_story_row;
    {| movieId := Some 9; title := Some "Heat (1995)"; year := Some 1995;
       genres := None; genres_list := None; avg_rating := Some (4 # 1);
       overview := Some DEFAULT_OVERVIEW |} ].

(** * Properties *)

(** ** Splitting the genre string *)

Lemma split_nonempty sep s : Text.split sep s <> [].
Proof.
  destruct s as [|c rest]; simpl; [discriminate|].
  destruct (Ascii.eqb c sep); [discriminate|].
  destruct (Text.split sep rest); discriminate.
Qed.

(** Joining the fields with the separator gives the text back: no field is
    lost, added or moved. *)
Lemma join_split sep s : Text.join sep (Text.split sep s) = s.
Proof.
  induction s as [|c rest IH]; simpl; [reflexivity|].
  destruct (Ascii.eqb_spec c sep) as [->|Hne].
  - pose proof (split_nonempty sep rest) as Hnil.
    destruct (Text.split sep rest) as [|w ws]; [contradiction|].
    simpl in *. now rewrite IH.
  - pose proof (split_nonempty sep rest) as Hnil.
    destruct (Text.split sep rest) as [|w ws]; [contradiction|].
    destruct ws as [|w' ws]; simpl in *; now rewrite <- IH.
Qed.

(** No field of a split contains the separator. *)
Lemma split_fields_clean sep s w :
  w ∈ Text.split sep s -> forall i, String.get i w <> Some sep.
Proof.
  revert w. induction s as [|c rest IH]; simpl; intros w Hw i.
  - apply list_elem_of_singleton in Hw as ->. now destruct i.
  - destruct (Ascii.eqb_spec c sep) as [->|Hne].
    + apply elem_of_cons in Hw as [->|Hw]; [now destruct i | now apply IH].
    + pose proof (split_nonempty sep rest) as Hnil.
      destruct (Text.split sep rest) as [|w0 ws]; [contradiction|].
      apply elem_of_cons in Hw as [->|Hw].
      * destruct i as [|i]; simpl; [congruence|].
        apply IH. left.
      * apply IH. now right.
Qed.

Lemma In_elem_of_filter {A} (p : A -> bool) (l : list A) x :
  x ∈ List.filter p l <-> x ∈ l /\ p x = true.
Proof. rewrite !list_elem_of_In. apply filter_In. Qed.

(** Every row of either loader carries the split of its own genre cell. *)
Lemma mock_genres_list r :
  r ∈ load_mock_data -> genres_list r = split_genres (genres r).
Proof.
  unfold load_mock_data. intros Hr.
  apply list_elem_of_fmap in Hr as (m & -> & _). reflexivity.
Qed.

Lemma process_kaggle_by_inv fmean fround1 movies ratings r :
  r ∈ process_kaggle_by fmean fround1 movies ratings ->
  exists m a y,
    m ∈ movie_rows movies /\
    avg_ratings_by fmean fround1 ratings !! raw_movieId m = Some (Some a) /\
    year_of_title (raw_title m) = Some y /\
    movieId r = Some (raw_movieId m) /\
    title r = raw_title m /\
    year r = Some y /\
    genres r = raw_genres m /\
    genres_list r = split_genres (raw_genres m) /\
    avg_rating r = Some a /\
    overview r = (if has_overview_column movies then raw_overview m
                  else Some DEFAULT_OVERVIEW).
Proof.
  unfold process_kaggle_by. intros Hr.
  set (avg := avg_ratings_by fmean fround1 ratings) in *.
  assert (Hclean : forall x,
             x ∈ dropna (omap (merge_row avg) (movie_rows movies)) ->
             exists m a y,
               m ∈ movie_rows movies /\
               avg !! raw_movieId m = Some (Some a) /\
               year_of_title (raw_title m) = Some y /\
               x = {| movieId := Some (raw_movieId m); title := raw_title m;
                      year := Some y; genres := raw_genres m;
                      genres_list := split_genres (raw_genres m);
                      avg_rating := Some a; overview := raw_overview m |}).
  { intros x Hx. unfold dropna in Hx.
    apply In_elem_of_filter in Hx as [Hx Hna].
    apply list_elem_of_omap in Hx as (m & Hm & Hrow).
    unfold merge_row in Hrow.
    destruct (avg !! raw_movieId m) as [a|] eqn:Havg;
      simpl in Hrow; [|discriminate].
    injection Hrow as <-. simpl in Hna.
    destruct (year_of_title (raw_title m)) as [y|] eqn:Hy; [|discriminate].
    destruct a as [a|]; [|discriminate].
    exists m, a, y. repeat split; assumption. }
  destruct (has_overview_column movies).
  - apply Hclean in Hr as (m & a & y & Hm & Havg & Hy & ->).
    exists m, a, y. repeat split; assumption.
  - apply list_elem_of_fmap in Hr as (x & -> & Hx).
    apply Hclean in Hx as (m & a & y & Hm & Havg & Hy & ->).
    exists m, a, y. repeat split; assumption.
Qed.

(** The loader with the exact arithmetic of [Rating]. *)
Lemma process_kaggle_exact movies ratings :
  process_kaggle movies ratings
  = process_kaggle_by Rating.mean Rating.round1 movies ratings.
Proof. reflexivity. Qed.

Lemma process_kaggle_inv movies ratings r :
  r ∈ process_kaggle movies ratings ->
  exists m a y,
    m ∈ movie_rows movies /\
    avg_ratings ratings !! raw_movieId m = Some (Some a) /\
    year_of_title (raw_title m) = Some y /\
    movieId r = Some (raw_movieId m) /\
    title r = raw_title m /\
    year r = Some y /\
    genres r = raw_genres m /\
    genres_list r = split_genres (raw_genres m) /\
    avg_rating r = Some a /\
    overview r = (if has_overview_column movies then raw_overview m
                  else Some DEFAULT_OVERVIEW).
Proof. exact (process_kaggle_by_inv Rating.mean Rating.round1 movies ratings r). Qed.


Lemma split_fields_no_sep sep s w :
  w ∈ Text.split sep s -> contains sep w = false.
Proof.
  revert w. induction s as [|c rest IH]; simpl; intros w Hw.
  - now apply list_elem_of_singleton in Hw as ->.
  - destruct (Ascii.eqb c sep) eqn:Hc.
    + apply elem_of_cons in Hw as [->|Hw]; [reflexivity | now apply IH].
    + pose proof (split_nonempty sep rest) as Hnil.
      destruct (Text.split sep rest) as [|w0 ws]; [contradiction|].
      apply elem_of_cons in Hw as [->|Hw].
      * simpl. rewrite Hc. apply IH. left.
      * apply IH. now right.
Qed.

Lemma split_no_sep sep w : contains sep w = false -> Text.split sep w = [w].
Proof.
  induction w as [|c w IH]; simpl; [reflexivity|].
  intros H. apply orb_false_iff in H as [Hc Hw].
  rewrite Hc, IH by assumption. reflexivity.
Qed.

Lemma split_app_sep sep w s :
  contains sep w = false ->
  Text.split sep (w ++ String sep s) = w :: Text.split sep s.
Proof.
  induction w as [|c w IH]; intros H.
  - change ("" ++ String sep s)%string with (String sep s).
    simpl. now rewrite Ascii.eqb_refl.
  - change (String c w ++ String sep s)%string with (String c (w ++ String sep s)).
    simpl in H. apply orb_false_iff in H as [Hc Hw].
    simpl. rewrite Hc, IH by assumption. reflexivity.
Qed.

(** Splitting is the inverse of joining: however a text is put together
    from fields without the separator, splitting gives these fields back,
    in their order. *)
Lemma split_join sep tags :
  tags <> [] ->
  (forall tag, tag ∈ tags -> contains sep tag = false) ->
  Text.split sep (Text.join sep tags) = tags.
Proof.
  induction tags as [|w tags IH]; intros Hne Hclean; [contradiction|].
  destruct tags as [|w' tags].
  - simpl. apply split_no_sep, Hclean. left.
  - change (Text.join sep (w :: w' :: tags))
      with (w ++ String sep (Text.join sep (w' :: tags)))%string.
    rewrite split_app_sep by (apply Hclean; left).
    f_equal. apply IH; [discriminate|].
    intros tag Htag. apply Hclean. now right.
Qed.

(** C5: Normalisation splits the raw genre string on the pipe character and
    keeps the order.  In both loaders, whatever non-empty list of tags
    without a pipe the genres text of a record is the pipe-joined form of,
    the record gets exactly that list as its genre list; so a record whose
    genres are "Action|Comedy" gets ["Action"; "Comedy"]. *)
Theorem genres_split_on_pipe :
  Text.split PIPE "Action|Comedy" = ["Action"; "Comedy"] /\
  (forall m, mock_genres m = "Action|Comedy" ->
             genres_list (mock_row m) = Some ["Action"; "Comedy"]) /\
  (forall movies ratings r,
     r ∈ process_kaggle movies ratings ->
     genres r = Some "Action|Comedy" ->
     genres_list r = Some ["Action"; "Comedy"]) /\
  (forall tags,
     tags <> [] ->
     (forall tag, tag ∈ tags -> contains PIPE tag = false) ->
     (forall m, mock_genres m = Text.join PIPE tags ->
                genres_list (mock_row m) = Some tags) /\
     (forall r, r ∈ load_mock_data -> genres r = Some (Text.join PIPE tags) ->
                genres_list r = Some tags) /\
     (forall fmean fround1 movies ratings r,
        r ∈ process_kaggle_by fmean fround1 movies ratings ->
        genres r = Some (Text.join PIPE tags) ->
        genres_list r = Some tags)).
Proof.
  split; [reflexivity|]. split; [|split].
  - intros m Hm. simpl. now rewrite Hm.
  - intros movies ratings r Hr Hg.
    apply process_kaggle_inv in Hr
      as (m & a & y & _ & _ & _ & _ & _ & _ & Hgen & Hlist & _).
    rewrite Hlist, <- Hgen, Hg. reflexivity.
  - intros tags Hne Hclean. split; [|split].
    + intros m Hm. simpl. rewrite Hm. f_equal. now apply split_join.
    + intros r Hr Hg. rewrite (mock_genres_list r Hr), Hg. simpl.
      f_equal. now apply split_join.
    + intros fmean fround1 movies ratings r Hr Hg.
      apply process_kaggle_by_inv in Hr
        as (m & a & y & _ & _ & _ & _ & _ & _ & Hgen & Hlist & _).
      rewrite Hlist, <- Hgen, Hg. simpl. f_equal. now apply split_join.
Qed.

Lemma genres_split_on_pipe_witness :
  genres_list (mock_row (mkMock "Rush Hour" 1998 "Action|Comedy" (70 # 10) "Two cops."))
    = Some ["Action"; "Comedy"] /\
  genres_list toy_story_row = Some ["Action"; "Comedy"] /\
  genres_list godfather_row = Some ["Crime"; "Drama"].
Proof.
  destruct genres_split_on_pipe as (_ & Hmock & Hkaggle & Hgeneral).
  split; [|split].
  - apply Hmock. reflexivity.
  - apply (Hkaggle sample_movies sample_ratings).
    + vm_compute. left.
    + reflexivity.
  - destruct (Hgeneral ["Crime"; "Drama"]) as (_ & Hloaded & _).
    + discriminate.
    + intros tag Htag.
      repeat (apply elem_of_cons in Htag as [-> | Htag]); try reflexivity.
      inversion Htag.
    + apply Hloaded; [|reflexivity]. vm_compute. do 10 right. left.
Defined.

(** ** The filter *)

Lemma genre_in_spec g r :
  genre_in g r = true <-> exists tags, genres_list r = Some tags /\ g ∈ tags.
Proof.
  unfold genre_in. destruct (genres_list r) as [tags|].
  - rewrite existsb_exists. split.
    + intros (x & Hx & Heq). apply String.eqb_eq in Heq as <-.
      exists tags. split; [reflexivity | now apply list_elem_of_In].
    + intros (tags' & [= <-] & Hg). exists g. split.
      * now apply list_elem_of_In.
      * apply String.eqb_refl.
  - split; [discriminate | intros (tags & Hn & _); discriminate].
Qed.

Lemma rating_ok_spec spec r :
  rating_ok spec r = true <->
  exists a, avg_rating r = Some a /\ (min_rating spec <= a)%Q.
Proof.
  unfold rating_ok. destruct (avg_rating r) as [a|].
  - rewrite Qle_bool_iff. split.
    + intros H. now exists a.
    + now intros (a' & [= <-] & H).
  - split; [discriminate | intros (a & Hn & _); discriminate].
Qed.

Lemma year_pred_spec spec r :
  year_pred spec r = true <->
  exists y, year r = Some y /\
            fst (selected_years spec) <= y <= snd (selected_years spec).
Proof.
  unfold year_pred, year_from_ok, year_to_ok. destruct (year r) as [y|].
  - rewrite andb_true_iff, !Z.leb_le. split.
    + intros H. now exists y.
    + now intros (y' & [= <-] & H).
  - split; [discriminate | intros (y & Hn & _); discriminate].
Qed.

Lemma genre_pred_spec spec r :
  genre_pred spec r = true <->
  selected_genre spec = ANY \/
  exists tags, genres_list r = Some tags /\ selected_genre spec ∈ tags.
Proof.
  unfold genre_pred. now rewrite orb_true_iff, String.eqb_eq, genre_in_spec.
Qed.

(** The code's two selections amount to one selection by the conjunction of
    the three predicates. *)
Lemma filtering_filtered_df spec s :
  filtered_df (filtering spec s) =
  List.filter (fun r => rating_pred spec r && year_pred spec r && genre_pred spec r) (df s).
Proof.
  unfold filtering, genre_pred, year_pred, rating_pred.
  destruct (String.eqb (selected_genre spec) ANY); simpl.
  - apply filter_ext. intros r. now rewrite andb_true_r, andb_assoc.
  - induction (df s) as [|r d IH]; simpl; [reflexivity|].
    rewrite <- andb_assoc.
    destruct (rating_ok spec r && (year_from_ok spec r && year_to_ok spec r));
      simpl; [|exact IH].
    destruct (genre_in (selected_genre spec) r); now rewrite IH.
Qed.

(** C1: A record is in the filtered output exactly when it is in the
    catalogue, its average rating is at least [min_rating], its year lies in
    the inclusive range, and the genre is "Any" or a member of its genre
    list; so every record of the output satisfies the three predicates and
    none that fails one of them appears. *)
Theorem filter_sound_complete spec d r :
  r ∈ filter_catalog spec d <->
  r ∈ d /\
  (exists a, avg_rating r = Some a /\ (min_rating spec <= a)%Q) /\
  (exists y, year r = Some y /\
             fst (selected_years spec) <= y <= snd (selected_years spec)) /\
  (selected_genre spec = ANY \/
   exists tags, genres_list r = Some tags /\ selected_genre spec ∈ tags).
Proof.
  unfold filter_catalog. rewrite filtering_filtered_df. simpl.
  rewrite In_elem_of_filter, !andb_true_iff.
  unfold rating_pred. rewrite rating_ok_spec, year_pred_spec, genre_pred_spec.
  tauto.
Qed.

Lemma filter_sound_complete_witness :
  godfather_row ∈ filter_catalog (mkSpec "Crime" (90 # 10) (1970, 1980)) load_mock_data /\
  godfather_row ∉ filter_catalog (mkSpec "Comedy" (90 # 10) (1970, 1980)) load_mock_data.
Proof.
  split.
  - apply filter_sound_complete. split; [|split; [|split]].
    + vm_compute. do 10 right. left.
    + exists (92 # 10). split; [reflexivity | discriminate].
    + exists 1972. simpl. split; [reflexivity | lia].
    + right. exists ["Crime"; "Drama"]. split; [reflexivity | left].
  - intros H. apply filter_sound_complete in H as (_ & _ & _ & [Hany | Htags]).
    + discriminate Hany.
    + destruct Htags as (tags & [= <-] & Hin).
      apply list_elem_of_In in Hin. simpl in Hin.
      destruct Hin as [H|[H|[]]]; discriminate H.
Defined.

(** ** Order of the predicates *)

Lemma apply_in_order_filter ps d :
  apply_in_order ps d = List.filter (fun r => forallb (fun p => p r) ps) d.
Proof.
  unfold apply_in_order. revert d.
  induction ps as [|p ps IH]; intros d; simpl.
  - induction d as [|r d IHd]; simpl; congruence.
  - rewrite IH. clear IH. induction d as [|r d IHd]; simpl; [reflexivity|].
    destruct (p r); simpl; [|exact IHd].
    destruct (forallb (fun q => q r) ps); now rewrite IHd.
Qed.

Lemma forallb_perm {A} (f : A -> bool) l k :
  l ≡ₚ k -> forallb f l = forallb f k.
Proof.
  induction 1 as [|x l k _ IH|x y l|l k m _ IH1 _ IH2]; simpl.
  - reflexivity.
  - now rewrite IH.
  - now rewrite !andb_assoc, (andb_comm (f y)).
  - now rewrite IH1.
Qed.

(** C7: Applying the rating, year and genre predicates one after the other
    in any order gives the table that the code computes, and the filtering
    stage leaves the catalogue variable as it was. *)
Theorem filter_order_irrelevant spec s ps :
  ps ≡ₚ predicates spec ->
  apply_in_order ps (df s) = filtered_df (filtering spec s) /\
  df (filtering spec s) = df s.
Proof.
  intros Hperm. split.
  - rewrite apply_in_order_filter, filtering_filtered_df.
    apply filter_ext. intros r.
    rewrite (forallb_perm (fun p => p r) _ _ Hperm). simpl.
    now rewrite andb_true_r, andb_assoc.
  - unfold filtering. now destruct (negb _).
Qed.

Lemma filter_order_irrelevant_witness :
  let spec := mkSpec "Drama" (85 # 10) (1990, 2015) in
  let s := {| df := load_mock_data; filtered_df := [] |} in
  apply_in_order [genre_pred spec; year_pred spec; rating_pred spec] (df s)
    = filtered_df (filtering spec s) /\
  df (filtering spec s) = df s.
Proof.
  intros spec s. apply filter_order_irrelevant.
  unfold predicates.
  etransitivity; [apply Permutation_swap|].
  etransitivity; [apply perm_skip, Permutation_swap|].
  apply Permutation_swap.
Defined.

(** ** The widest filter *)

Lemma foldr_min_le y ys : foldr Z.min y ys <= y /\ forall x, x ∈ ys -> foldr Z.min y ys <= x.
Proof.
  induction ys as [|z ys [IHy IHx]]; simpl.
  - split; [lia | intros x Hx; inversion Hx].
  - split; [lia|]. intros x Hx.
    apply elem_of_cons in Hx as [->|Hx]; [lia|]. specialize (IHx x Hx). lia.
Qed.

Lemma foldr_max_ge y ys : y <= foldr Z.max y ys /\ forall x, x ∈ ys -> x <= foldr Z.max y ys.
Proof.
  induction ys as [|z ys [IHy IHx]]; simpl.
  - split; [lia | intros x Hx; inversion Hx].
  - split; [lia|]. intros x Hx.
    apply elem_of_cons in Hx as [->|Hx]; [lia|]. specialize (IHx x Hx). lia.
Qed.

Lemma series_min_le cells lo y :
  series_min cells = Some lo -> Some y ∈ cells -> lo <= y.
Proof.
  unfold series_min. intros Hmin Hy.
  assert (Hin : y ∈ omap id cells) by (apply list_elem_of_omap; eauto).
  destruct (omap id cells) as [|z zs]; [discriminate|].
  injection Hmin as <-. destruct (foldr_min_le z zs) as [Hz Hzs].
  apply elem_of_cons in Hin as [->|Hin]; auto.
Qed.

Lemma series_max_ge cells hi y :
  series_max cells = Some hi -> Some y ∈ cells -> y <= hi.
Proof.
  unfold series_max. intros Hmax Hy.
  assert (Hin : y ∈ omap id cells) by (apply list_elem_of_omap; eauto).
  destruct (omap id cells) as [|z zs]; [discriminate|].
  injection Hmax as <-. destruct (foldr_max_ge z zs) as [Hz Hzs].
  apply elem_of_cons in Hin as [->|Hin]; auto.
Qed.

(** A table in which some year is present has a span of years. *)
Lemma year_span_defined d r y :
  r ∈ d -> year r = Some y -> exists lo hi, year_span d = Some (lo, hi).
Proof.
  intros Hr Hy. unfold year_span, series_min, series_max.
  assert (Hin : y ∈ omap id (map year d)).
  { apply list_elem_of_omap. exists (Some y). split; [|reflexivity].
    rewrite <- Hy. now apply (list_elem_of_fmap_2 year). }
  destruct (omap id (map year d)) as [|z zs]; [inversion Hin|].
  simpl. eauto.
Qed.

Lemma year_span_bounds d lo hi r y :
  year_span d = Some (lo, hi) -> r ∈ d -> year r = Some y -> lo <= y <= hi.
Proof.
  unfold year_span. intros Hspan Hr Hy.
  destruct (series_min (map year d)) as [lo'|] eqn:Hlo; [|discriminate].
  destruct (series_max (map year d)) as [hi'|] eqn:Hhi; [|discriminate].
  simpl in Hspan. injection Hspan as <- <-.
  assert (Hin : Some y ∈ map year d).
  { rewrite <- Hy. now apply (list_elem_of_fmap_2 year). }
  split; [eapply series_min_le | eapply series_max_ge]; eassumption.
Qed.

Lemma filter_all {A} (p : A -> bool) (l : list A) :
  (forall x, x ∈ l -> p x = true) -> List.filter p l = l.
Proof.
  induction l as [|x l IH]; intros Hall; simpl; [reflexivity|].
  rewrite (Hall x) by left. f_equal. apply IH. intros y Hy. apply Hall. now right.
Qed.

(** C2, as the code has it: With genre "Any", the lowest rating of the
    slider (1.0) and the whole span of years of the table, the filter
    returns a non-empty catalogue unchanged provided every record has a
    year and an average rating of at least 1.0. *)
Theorem widest_filter_identity d :
  d <> [] ->
  (forall r, r ∈ d -> is_Some (year r)) ->
  (forall r, r ∈ d -> exists a, avg_rating r = Some a /\ (MIN_RATING_LOWEST <= a)%Q) ->
  exists spec, widest_spec d = Some spec /\ filter_catalog spec d = d.
Proof.
  intros Hne Hyear Hrating. unfold widest_spec.
  destruct d as [|r0 d0] eqn:Hd; [contradiction|]. rewrite <- Hd in *.
  assert (Hr0 : r0 ∈ d) by (rewrite Hd; left).
  destruct (Hyear r0 Hr0) as [y0 Hy0].
  destruct (year_span_defined d r0 y0 Hr0 Hy0) as (lo & hi & Hspan).
  rewrite Hspan. simpl. eexists. split; [reflexivity|].
  unfold filter_catalog. rewrite filtering_filtered_df. simpl.
  apply filter_all. intros r Hr. rewrite !andb_true_iff.
  split; [split|].
  - apply rating_ok_spec. simpl. auto.
  - apply year_pred_spec. simpl. destruct (Hyear r Hr) as [y Hy].
    exists y. split; [assumption|]. eapply year_span_bounds; eassumption.
  - apply genre_pred_spec. now left.
Qed.

(** The embedded sample set passes the widest filter whole. *)
Lemma widest_filter_identity_witness :
  exists spec, widest_spec load_mock_data = Some spec /\
               filter_catalog spec load_mock_data = load_mock_data.
Proof.
  apply widest_filter_identity.
  - discriminate.
  - apply Forall_forall. vm_compute. repeat (constructor; [eexists; reflexivity|]).
    constructor.
  - apply Forall_forall. unfold load_mock_data, MOCK_MOVIES. simpl.
    repeat (constructor; [eexists; split; [reflexivity | discriminate]|]).
    constructor.
Defined.

(** C2, as stated, fails: the external path yields a catalogue with a film
    rated 0.5, and the widest filter the sidebar offers removes it. *)
Lemma widest_filter_drops_low_rated :
  load_kaggle_data low_rated_world = Ok low_rated_catalog /\
  widest_spec low_rated_catalog = Some (mkSpec ANY MIN_RATING_LOWEST (1959, 1959)) /\
  filter_catalog (mkSpec ANY MIN_RATING_LOWEST (1959, 1959)) low_rated_catalog
    <> low_rated_catalog.
Proof.
  split; [vm_compute; reflexivity|]. split; [reflexivity|].
  vm_compute. discriminate.
Qed.

(** ** The randomize button on an empty table *)

(** C3: Pressed on an empty filtered table, the button reports "No movies
    found!", selects nothing and replaces whatever was selected before by
    the empty value; the handler returns normally for every state. *)
Theorem randomize_empty_clears draw st :
  randomize [] draw st = ({| selected_movie := None |}, [StWarning "No movies found!"]) /\
  selected_movie (fst (randomize [] draw st)) = None /\
  forall draws, draws <> [] -> selected_movie (press_all [] draws st) = None.
Proof.
  split; [reflexivity|]. split; [reflexivity|].
  intros draws. revert st.
  induction draws as [|d draws IH]; intros st Hne; [contradiction|].
  destruct draws as [|d' draws]; [reflexivity|].
  change (press_all [] (d :: d' :: draws) st)
    with (press_all [] (d' :: draws) (fst (randomize [] d st))).
  apply IH. discriminate.
Qed.

Lemma randomize_empty_clears_witness :
  selected_movie (press_all [] [3%nat; 0%nat] {| selected_movie := Some godfather_row |})
  = None.
Proof.
  apply (randomize_empty_clears 0 {| selected_movie := Some godfather_row |}).
  discriminate.
Defined.

(** ** Falling back to the sample set *)

(** Each step of the external path that fails makes the loader raise, and
    so does a column that has not the type the body expects. *)
Lemma load_kaggle_data_raises w :
  KAGGLE_AVAILABLE w = false \/
  (exists e, dataset_download w = Raise e) \/
  (exists path e, dataset_download w = Ok path /\
                  (read_movies_csv w (path ++ "/movies.csv")%string = Raise e \/
                   read_ratings_csv w (path ++ "/ratings.csv")%string = Raise e)) \/
  (exists path movies ratings,
     dataset_download w = Ok path /\
     read_movies_csv w (path ++ "/movies.csv")%string = Ok movies /\
     read_ratings_csv w (path ++ "/ratings.csv")%string = Ok ratings /\
     (text_column (map line_title (movie_lines movies)) = false \/
      number_column (map rline_rating ratings) = false \/
      text_column (map line_genres (movie_lines movies)) = false)) ->
  exists e, load_kaggle_data w = Raise e.
Proof.
  unfold load_kaggle_data, load_kaggle_data_by.
  intros [Hoff | [(e & Hdl) | [(path & e & Hdl & [Hm | Hr])
                              | (path & movies & ratings & Hdl & Hm & Hr & Hcol)]]].
  - rewrite Hoff. simpl. eauto.
  - destruct (KAGGLE_AVAILABLE w); simpl; [|eauto]. rewrite Hdl. simpl. eauto.
  - destruct (KAGGLE_AVAILABLE w); simpl; [|eauto]. rewrite Hdl. simpl.
    rewrite Hm. simpl. eauto.
  - destruct (KAGGLE_AVAILABLE w); simpl; [|eauto]. rewrite Hdl. simpl.
    destruct (read_movies_csv w _); simpl; [|eauto]. rewrite Hr. simpl. eauto.
  - destruct (KAGGLE_AVAILABLE w); simpl; [|eauto]. rewrite Hdl. simpl.
    rewrite Hm. simpl. rewrite Hr. simpl.
    unfold str_accessor, mean_accepts.
    destruct (text_column (map line_title (movie_lines movies))); simpl; [|eauto].
    destruct (number_column (map rline_rating ratings)); simpl; [|eauto].
    destruct (text_column (map line_genres (movie_lines movies))); simpl; [|eauto].
    destruct Hcol as [H | [H | H]]; discriminate.
Qed.

(** C4: When the external loader raises, whatever the exception, [main]
    continues with exactly the embedded sample set (which is not empty, so
    the page goes on) and shows one error notice. *)
Theorem fetch_failure_falls_back w e :
  load_kaggle_data w = Raise e ->
  load_data w KaggleDataset =
    (load_mock_data, [StError "Could not load Kaggle data. Switched to Demo Mode."]) /\
  fst (load_data w KaggleDataset) = fst (load_data w DemoData) /\
  fst (load_data w KaggleDataset) <> [].
Proof.
  intros Hraise. unfold load_data. rewrite Hraise. simpl.
  split; [reflexivity|]. split; [reflexivity | discriminate].
Qed.

Lemma fetch_failure_falls_back_witness :
  load_data broken_ratings_world KaggleDataset =
    (load_mock_data, [StError "Could not load Kaggle data. Switched to Demo Mode."]) /\
  fst (load_data broken_ratings_world KaggleDataset)
    = fst (load_data broken_ratings_world DemoData) /\
  fst (load_data broken_ratings_world KaggleDataset) <> [].
Proof.
  apply (fetch_failure_falls_back broken_ratings_world
           (ReadError "/kaggle/input/ratings.csv")).
  reflexivity.
Defined.

(** ** Grouping and averaging the ratings *)

(** A movie id is a key of the groupby exactly when the table has a row for
    it; its group is then the rating cells of those rows, in row order. *)
Lemma groupby_lookup ratings k :
  groupby_movieId ratings !! k =
  match rows_of_movie k ratings with
  | [] => None
  | g => Some (map rating g)
  end.
Proof.
  induction ratings as [|x ratings IH]; simpl; [apply lookup_empty|].
  fold (groupby_movieId ratings). fold (rows_of_movie k ratings).
  rewrite lookup_insert. destruct (decide (rating_movieId x = k)) as [->|Hne].
  - rewrite Z.eqb_refl, IH.
    now destruct (rows_of_movie k ratings).
  - apply Z.eqb_neq in Hne. now rewrite Hne.
Qed.

Lemma omap_id_map {A B} (f : A -> option B) (l : list A) :
  omap id (map f l) = omap f l.
Proof.
  induction l as [|x l IH]; [reflexivity|].
  cbn. destruct (f x); cbn; now rewrite <- IH.
Qed.

(** The average attached to a movie id: present for the ids that have a
    rating row, and then the rounded mean of the values of those rows (or
    NaN when none of them holds a value). *)
Lemma avg_ratings_by_lookup fmean fround1 ratings k :
  avg_ratings_by fmean fround1 ratings !! k =
  match rows_of_movie k ratings with
  | [] => None
  | _ => Some (match ratings_of k ratings with
               | [] => None
               | vs => Some (fround1 (fmean vs))
               end)
  end.
Proof.
  unfold avg_ratings_by, ratings_of. rewrite lookup_fmap, groupby_lookup.
  destruct (rows_of_movie k ratings) as [|x g] eqn:Hrows; [reflexivity|].
  simpl option_map. cbn [fmap option_fmap option_map]. f_equal.
  unfold Rating.series_mean_by. rewrite omap_id_map.
  now destruct (omap rating (x :: g)).
Qed.

Lemma avg_ratings_lookup ratings k :
  avg_ratings ratings !! k =
  match rows_of_movie k ratings with
  | [] => None
  | _ => Some (match ratings_of k ratings with
               | [] => None
               | vs => Some (Rating.round1 (Rating.mean vs))
               end)
  end.
Proof. exact (avg_ratings_by_lookup Rating.mean Rating.round1 ratings k). Qed.

Lemma ratings_of_nil_of_rows_nil k ratings :
  rows_of_movie k ratings = [] -> ratings_of k ratings = [].
Proof. unfold ratings_of. now intros ->. Qed.

Lemma avg_ratings_by_value fmean fround1 ratings k a :
  avg_ratings_by fmean fround1 ratings !! k = Some (Some a) ->
  ratings_of k ratings <> [] /\
  a = fround1 (fmean (ratings_of k ratings)).
Proof.
  rewrite avg_ratings_by_lookup.
  destruct (rows_of_movie k ratings); [discriminate|].
  destruct (ratings_of k ratings); [discriminate|].
  intros [= <-]. split; [discriminate | reflexivity].
Qed.


(** ** The extracted year *)





















Lemma is_ascii_app a b : is_ascii (a ++ b) = is_ascii a && is_ascii b.
Proof.
  induction a as [|x a IH]; [reflexivity|].
  change (String x a ++ b)%string with (String x (a ++ b)).
  cbn [is_ascii]. now rewrite IH, andb_assoc.
Qed.





(** A leftmost group written with other digits hides the groups after it. *)
Lemma arabic_year_hides_later_group :
  Text.extract_year title_with_arabic_year = Some "١٩٩٥" /\
  year_of_title (Some title_with_arabic_year) = None /\
  year_of_title (Some "Film (1996)") = Some 1996.
Proof. repeat split; vm_compute; reflexivity. Qed.

(** ** Rows kept and rows dropped by the external loader *)






(** On the sample tables: of four films one is kept; the film without a
    year, the film without rating rows and the film whose only rating cell
    is empty are gone. *)
Lemma sample_world_catalog : load_kaggle_data sample_world = Ok [toy_story_row].
Proof. vm_compute. reflexivity. Qed.

(** Text in the rating column, or a movies file without any title, makes
    the body raise; [main] then goes on with the sample set. *)
Lemma processing_error_falls_back :
  load_kaggle_data text_rating_world
  = Raise (TypeError "agg function failed [how->mean,dtype->object]") /\
  load_kaggle_data missing_titles_world
  = Raise (AttributeError "Can only use .str accessor with string values!") /\
  fst (load_data text_rating_world KaggleDataset) = load_mock_data /\
  fst (load_data missing_titles_world KaggleDataset) = load_mock_data.
Proof. repeat split; vm_compute; reflexivity. Qed.

(** ** The average rating of a catalogue record *)

(** C10: Whatever the floating-point mean [fmean] and rounding [fround1]
    of the library compute, every record of the external catalogue has a
    movie id with at least one rating value in the ratings table, and its
    average rating is the rounding of the mean of exactly those values, in
    the order of the table; a movie without any row in the ratings table
    has no record in the catalogue. *)
Theorem catalog_rating_is_rounded_mean fmean fround1 movies ratings :
  (forall r, r ∈ process_kaggle_by fmean fround1 movies ratings ->
     exists id, movieId r = Some id /\
                rows_of_movie id ratings <> [] /\
                ratings_of id ratings <> [] /\
                avg_rating r = Some (fround1 (fmean (ratings_of id ratings)))) /\
  (forall m, m ∈ movie_rows movies ->
     rows_of_movie (raw_movieId m) ratings = [] ->
     forall r, r ∈ process_kaggle_by fmean fround1 movies ratings ->
               movieId r <> Some (raw_movieId m)).
Proof.
  split.
  - intros r Hr.
    apply process_kaggle_by_inv in Hr
      as (m & a & y & _ & Havg & _ & Hid & _ & _ & _ & _ & Ha & _).
    apply avg_ratings_by_value in Havg as [Hvals ->].
    exists (raw_movieId m). repeat split; try assumption.
    intros Hrows. apply Hvals. now apply ratings_of_nil_of_rows_nil.
  - intros m _ Hrows r Hr Heq.
    apply process_kaggle_by_inv in Hr
      as (m' & a & y & _ & Havg & _ & Hid & _).
    rewrite Hid in Heq. injection Heq as Heq. rewrite Heq in Havg.
    apply avg_ratings_by_value in Havg as [Hvals _].
    apply Hvals. now apply ratings_of_nil_of_rows_nil.
Qed.

Lemma catalog_rating_is_rounded_mean_witness :
  (exists id, movieId toy_story_row = Some id /\
              rows_of_movie id sample_ratings <> [] /\
              ratings_of id sample_ratings <> [] /\
              avg_rating toy_story_row =
                Some (Rating.round1 (Rating.mean (ratings_of id sample_ratings)))) /\
  (forall r, r ∈ process_kaggle_by Rating.mean Rating.round1 sample_movies sample_ratings ->
             movieId r <> Some 3).
Proof.
  destruct (catalog_rating_is_rounded_mean Rating.mean Rating.round1
              sample_movies sample_ratings) as [Hmean Hdrop].
  split.
  - apply Hmean. vm_compute. left.
  - apply (Hdrop (mkMovieRaw 3 (Some "Heat (1995)") (Some "Action|Crime") None)).
    + vm_compute. do 2 right. left.
    + reflexivity.
Defined.

(** ** The overview column *)

(** C9, as the code has it: When the movies table has no overview column,
    every record of the external catalogue gets the placeholder text; when
    the table has the column, each record keeps the cell of its raw row as
    it was read. *)
Theorem overview_default_when_column_absent movies ratings r :
  r ∈ process_kaggle movies ratings ->
  (has_overview_column movies = false -> overview r = Some DEFAULT_OVERVIEW) /\
  (has_overview_column movies = true ->
   exists m, m ∈ movie_rows movies /\ movieId r = Some (raw_movieId m) /\
             title r = raw_title m /\ overview r = raw_overview m).
Proof.
  intros Hr.
  apply process_kaggle_inv in Hr
    as (m & a & y & Hm & _ & _ & Hid & Ht & _ & _ & _ & _ & Hov).
  split; intros Hcol; rewrite Hcol in Hov; [assumption|].
  exists m. now repeat split.
Qed.

Lemma overview_default_when_column_absent_witness :
  (has_overview_column sample_movies = false ->
   overview toy_story_row = Some DEFAULT_OVERVIEW) /\
  (has_overview_column sample_movies = true ->
   exists m, m ∈ movie_rows sample_movies /\
             movieId toy_story_row = Some (raw_movieId m) /\
             title toy_story_row = raw_title m /\
             overview toy_story_row = raw_overview m).
Proof.
  apply (overview_default_when_column_absent sample_movies sample_ratings).
  vm_compute. left.
Defined.

(** Every row of the embedded sample set has a year, a rating and an
    overview. *)
Lemma mock_rows_complete r :
  r ∈ load_mock_data -> is_Some (year r) /\ is_Some (avg_rating r).
Proof.
  unfold load_mock_data. intros Hr.
  apply list_elem_of_fmap in Hr as (m & -> & _). simpl. eauto.
Qed.

Lemma mock_rows_have_overview r : r ∈ load_mock_data -> is_Some (overview r).
Proof.
  unfold load_mock_data. intros Hr.
  apply list_elem_of_fmap in Hr as (m & -> & _). simpl. eauto.
Qed.

(** C9, as stated, fails: with an overview column that has an empty cell,
    the record of that row is in the catalogue without any overview. *)
Lemma overview_gap_not_filled :
  map overview (process_kaggle overview_gap_movies overview_gap_ratings)
  = [Some "A cowboy doll is threatened by a new toy."; None].
Proof. vm_compute. reflexivity. Qed.

(** ** The random pick *)

Lemma randomize_nonempty filtered d st :
  filtered <> [] ->
  randomize filtered d st = ({| selected_movie := filtered !! d |}, []).
Proof. destruct filtered; [contradiction | reflexivity]. Qed.

(** A press reads neither the selection in the session nor the presses
    made before it: what it selects is decided by its own draw. *)
Lemma press_reads_no_history filtered draws d st st' :
  fst (randomize filtered d (press_all filtered draws st))
  = fst (randomize filtered d st').
Proof. now destruct filtered. Qed.

(** * Further properties of the code *)

(** ** The filter as an operation on tables *)

Lemma filter_catalog_eq spec d :
  filter_catalog spec d =
  List.filter (fun r => rating_pred spec r && year_pred spec r && genre_pred spec r) d.
Proof. unfold filter_catalog. now rewrite filtering_filtered_df. Qed.

Lemma filter_sublist_of {A} (p : A -> bool) (l : list A) :
  List.filter p l `sublist_of` l.
Proof.
  induction l as [|x l IH]; simpl; [constructor|].
  destruct (p x); now constructor.
Qed.

Lemma filter_weaken_sublist {A} (p q : A -> bool) (l : list A) :
  (forall x, x ∈ l -> p x = true -> q x = true) ->
  List.filter p l `sublist_of` List.filter q l.
Proof.
  induction l as [|x l IH]; intros Himp; simpl; [constructor|].
  assert (IH' : List.filter p l `sublist_of` List.filter q l).
  { apply IH. intros y Hy. apply Himp. now right. }
  destruct (p x) eqn:Hp.
  - rewrite (Himp x) by (left || assumption). now constructor.
  - destruct (q x); [now constructor | assumption].
Qed.

Lemma filter_idem {A} (p : A -> bool) (l : list A) :
  List.filter p (List.filter p l) = List.filter p l.
Proof.
  apply filter_all. intros x Hx. now apply In_elem_of_filter in Hx.
Qed.

(** X1: The filtered table is the catalogue with rows left out: nothing is
    added, reordered or repeated, so "Movies Found" never exceeds the size
    of the catalogue; filtering the result again with the same settings
    changes nothing, and a catalogue made of two parts is filtered part by
    part. *)
Theorem filter_keeps_order spec d d' :
  filter_catalog spec d `sublist_of` d /\
  (movies_found (filtering spec {| df := d; filtered_df := [] |}) <= length d)%nat /\
  filter_catalog spec (filter_catalog spec d) = filter_catalog spec d /\
  filter_catalog spec (d ++ d') = (filter_catalog spec d ++ filter_catalog spec d')%list.
Proof.
  rewrite !filter_catalog_eq. split; [|split; [|split]].
  - apply filter_sublist_of.
  - unfold movies_found. rewrite filtering_filtered_df. simpl.
    apply sublist_length, filter_sublist_of.
  - apply filter_idem.
  - apply List.filter_app.
Qed.

(** X2: Tightening the settings never brings a film in: with a higher minimum
    rating, a narrower range of years and the same genre (or a genre in
    place of "Any"), the filtered table is the earlier one with rows left
    out. *)
Theorem filter_monotone spec spec' d :
  (min_rating spec <= min_rating spec')%Q ->
  fst (selected_years spec) <= fst (selected_years spec') ->
  snd (selected_years spec') <= snd (selected_years spec) ->
  selected_genre spec = ANY \/ selected_genre spec = selected_genre spec' ->
  filter_catalog spec' d `sublist_of` filter_catalog spec d /\
  (length (filter_catalog spec' d) <= length (filter_catalog spec d))%nat.
Proof.
  intros Hrating Hlo Hhi Hgenre.
  assert (Hsub : filter_catalog spec' d `sublist_of` filter_catalog spec d).
  { rewrite !filter_catalog_eq. apply filter_weaken_sublist. intros r _.
    rewrite !andb_true_iff. intros [[Hr Hy] Hg]. split; [split|].
    - unfold rating_pred in *. apply rating_ok_spec in Hr as (a & Ha & Hle).
      apply rating_ok_spec. exists a. split; [assumption|].
      now apply Qle_trans with (min_rating spec').
    - apply year_pred_spec in Hy as (y & Hy & Hrange).
      apply year_pred_spec. exists y. split; [assumption | lia].
    - apply genre_pred_spec. destruct Hgenre as [Hany | Hsame]; [now left|].
      rewrite Hsame. now apply genre_pred_spec. }
  split; [assumption | now apply sublist_length].
Qed.

Lemma filter_monotone_witness :
  filter_catalog (mkSpec "Drama" (88 # 10) (1990, 2010)) load_mock_data
    `sublist_of` filter_catalog (mkSpec ANY (80 # 10) (1972, 2022)) load_mock_data /\
  (length (filter_catalog (mkSpec "Drama" (88 # 10) (1990, 2010)%Z) load_mock_data)
   <= length (filter_catalog (mkSpec ANY (80 # 10) (1972, 2022)%Z) load_mock_data))%nat.
Proof.
  apply filter_monotone; simpl.
  - discriminate.
  - lia.
  - lia.
  - now left.
Defined.

(** ** What the button selects *)

(** X3: A film that the button selects from the filtered table is a row of the
    catalogue and passes the rating, year and genre settings in force at
    the press, whatever the draw and the state before. *)
Theorem selected_row_passes_filter spec d draw st r :
  selected_movie (fst (randomize (filter_catalog spec d) draw st)) = Some r ->
  r ∈ d /\
  (exists a, avg_rating r = Some a /\ (min_rating spec <= a)%Q) /\
  (exists y, year r = Some y /\
             fst (selected_years spec) <= y <= snd (selected_years spec)) /\
  (selected_genre spec = ANY \/
   exists tags, genres_list r = Some tags /\ selected_genre spec ∈ tags).
Proof.
  intros Hsel.
  assert (Hr : r ∈ filter_catalog spec d).
  { destruct (filter_catalog spec d) as [|x l] eqn:Hf; [discriminate|].
    rewrite randomize_nonempty in Hsel by discriminate. simpl in Hsel.
    apply list_elem_of_lookup. eauto. }
  rewrite filter_catalog_eq in Hr.
  apply In_elem_of_filter in Hr as [Hd Hp].
  rewrite !andb_true_iff in Hp. destruct Hp as [[Hrat Hy] Hg].
  split; [assumption|]. split; [now apply rating_ok_spec|].
  split; [now apply year_pred_spec | now apply genre_pred_spec].
Qed.

Lemma selected_row_passes_filter_witness :
  godfather_row ∈ load_mock_data /\
  (exists a, avg_rating godfather_row = Some a /\ (90 # 10 <= a)%Q) /\
  (exists y, year godfather_row = Some y /\ 1970 <= y <= 1980) /\
  ("Crime" = ANY \/
   exists tags, genres_list godfather_row = Some tags /\ "Crime" ∈ tags).
Proof.
  apply (selected_row_passes_filter (mkSpec "Crime" (90 # 10) (1970, 1980))
           load_mock_data 0 {| selected_movie := None |} godfather_row).
  reflexivity.
Defined.

(** ** The data source *)

Lemma truthy_spec v : truthy v = true <-> exists s, v = Some s /\ s <> "".
Proof.
  unfold truthy. destruct v as [s|].
  - rewrite negb_true_iff, String.eqb_neq. split.
    + intros H. now exists s.
    + now intros (s' & [= <-] & H).
  - split; [discriminate | intros (s & H & _); discriminate].
Qed.

(** X4: The Kaggle dataset is the preselected source exactly when both
    KAGGLE_USERNAME and KAGGLE_KEY are set to non-empty text; in every other
    case (a variable unset, or set to the empty string) the demo data is
    preselected. *)
Theorem kaggle_preselected_iff (environ : gmap string string) :
  (default_data_source environ = Some KaggleDataset <->
   exists u k, environ !! "KAGGLE_USERNAME" = Some u /\ u <> "" /\
               environ !! "KAGGLE_KEY" = Some k /\ k <> "") /\
  (default_data_source environ <> Some KaggleDataset ->
   default_data_source environ = Some DemoData).
Proof.
  unfold default_data_source, default_index, has_kaggle_auth, py_and.
  destruct (truthy (environ !! "KAGGLE_USERNAME")) eqn:Hu.
  - destruct (truthy (environ !! "KAGGLE_KEY")) eqn:Hk; simpl.
    + split; [|congruence]. split; [intros _|reflexivity].
      apply truthy_spec in Hu as (u & Hu & Hune).
      apply truthy_spec in Hk as (k & Hk & Hkne).
      exists u, k. now rewrite Hu, Hk.
    + split; [|reflexivity]. split; [discriminate|].
      intros (u & k & _ & _ & Hk' & Hkne).
      assert (truthy (environ !! "KAGGLE_KEY") = true)
        by (apply truthy_spec; eauto).
      congruence.
  - rewrite Hu. simpl. split; [|reflexivity]. split; [discriminate|].
    intros (u & k & Hu' & Hune & _).
    assert (truthy (environ !! "KAGGLE_USERNAME") = true)
      by (apply truthy_spec; eauto).
    congruence.
Qed.

Lemma kaggle_preselected_iff_witness :
  default_data_source environ_empty_key = Some DemoData.
Proof.
  apply kaggle_preselected_iff. vm_compute. discriminate.
Defined.

Lemma load_kaggle_data_ok w d :
  load_kaggle_data w = Ok d ->
  exists movies ratings, d = process_kaggle movies ratings.
Proof.
  unfold load_kaggle_data, load_kaggle_data_by, str_accessor, mean_accepts.
  destruct (KAGGLE_AVAILABLE w); simpl; [|discriminate].
  destruct (dataset_download w) as [path|]; simpl; [|discriminate].
  destruct (read_movies_csv w _) as [movies|]; simpl; [|discriminate].
  destruct (read_ratings_csv w _) as [ratings|]; simpl; [|discriminate].
  destruct (text_column (map line_title _)); simpl; [|discriminate].
  destruct (number_column _); simpl; [|discriminate].
  destruct (text_column (map line_genres _)); simpl; [|discriminate].
  intros [= <-]. exists (movies_of_file movies), (map rating_of_line ratings).
  reflexivity.
Qed.

(** The catalogue that [main] works with comes from one of the two loaders. *)
Lemma load_data_origin w src :
  fst (load_data w src) = load_mock_data \/
  exists movies ratings, fst (load_data w src) = process_kaggle movies ratings.
Proof.
  unfold load_data. destruct src; [now left|].
  destruct (load_kaggle_data w) as [d|e] eqn:Hload; [|now left].
  right. now apply load_kaggle_data_ok in Hload.
Qed.

Lemma loaded_row_complete w src r :
  r ∈ fst (load_data w src) ->
  is_Some (year r) /\ is_Some (avg_rating r) /\
  genres_list r = split_genres (genres r).
Proof.
  destruct (load_data_origin w src) as [-> | (movies & ratings & ->)]; intros Hr.
  - destruct (mock_rows_complete r Hr). auto using mock_genres_list.
  - apply process_kaggle_inv in Hr
      as (m & a & y & _ & _ & _ & _ & _ & Hy & Hg & Hl & Ha & _).
    rewrite Hy, Ha, Hl, Hg. eauto.
Qed.

(** X5: [main] stops before the sidebar only in one case: the Kaggle dataset
    was chosen, both tables were read without error, and no film survived
    the cleaning; the user is then told that 0 movies were loaded.  Demo
    mode and the fallback after a failed download never stop. *)
Theorem stops_only_on_empty_download w src :
  stops (fst (load_data w src)) = true <->
  src = KaggleDataset /\ load_kaggle_data w = Ok [] /\
  load_data w src = ([], [StSuccess 0]).
Proof.
  unfold load_data. destruct src.
  - split; [discriminate | intros (H & _); discriminate].
  - destruct (load_kaggle_data w) as [d|e]; simpl.
    + destruct d as [|r d]; simpl.
      * now split.
      * split; [discriminate | intros (_ & H & _); discriminate].
    + split; [discriminate | intros (_ & H & _); discriminate].
Qed.

Lemma stops_only_on_empty_download_witness :
  stops (fst (load_data empty_catalog_world KaggleDataset)) = true.
Proof.
  apply stops_only_on_empty_download.
  split; [reflexivity|]. split; vm_compute; reflexivity.
Defined.

(** ** The year slider *)

Lemma foldr_min_attained y ys : foldr Z.min y ys ∈ y :: ys.
Proof.
  induction ys as [|z ys IH]; simpl; [left|].
  destruct (Z.min_spec z (foldr Z.min y ys)) as [[_ ->] | [_ ->]].
  - right. left.
  - apply elem_of_cons in IH as [-> | IH]; [left | right; now right].
Qed.

Lemma foldr_max_attained y ys : foldr Z.max y ys ∈ y :: ys.
Proof.
  induction ys as [|z ys IH]; simpl; [left|].
  destruct (Z.max_spec z (foldr Z.max y ys)) as [[_ ->] | [_ ->]].
  - apply elem_of_cons in IH as [-> | IH]; [left | right; now right].
  - right. left.
Qed.

Lemma year_span_attained d lo hi :
  year_span d = Some (lo, hi) ->
  (exists r, r ∈ d /\ year r = Some lo) /\ (exists r, r ∈ d /\ year r = Some hi).
Proof.
  unfold year_span, series_min, series_max. intros Hspan.
  assert (Hback : forall y, y ∈ omap id (map year d) -> exists r, r ∈ d /\ year r = Some y).
  { intros y Hy. apply list_elem_of_omap in Hy as (c & Hc & Hid).
    unfold id in Hid. subst c.
    apply list_elem_of_fmap in Hc as (r & Hyr & Hr). eauto. }
  destruct (omap id (map year d)) as [|z zs]; [discriminate|].
  simpl in Hspan. injection Hspan as <- <-.
  split; apply Hback; [apply foldr_min_attained | apply foldr_max_attained].
Qed.

Lemma year_span_ordered d lo hi : year_span d = Some (lo, hi) -> lo <= hi.
Proof.
  intros Hspan. destruct (year_span_attained d lo hi Hspan) as [(r & Hr & Hy) _].
  now destruct (year_span_bounds d lo hi r lo Hspan Hr Hy).
Qed.

(** X6: On every non-empty catalogue that [main] loads, the ends of the year
    slider are defined (no conversion of NaN to an integer), they are the
    smallest and the largest year of the catalogue, and every film lies
    between them. *)
Theorem sidebar_year_bounds w src :
  stops (fst (load_data w src)) = false ->
  exists min_year max_year,
    year_span (fst (load_data w src)) = Some (min_year, max_year) /\
    min_year <= max_year /\
    (forall r, r ∈ fst (load_data w src) ->
       exists y, year r = Some y /\ min_year <= y <= max_year) /\
    (exists r, r ∈ fst (load_data w src) /\ year r = Some min_year) /\
    (exists r, r ∈ fst (load_data w src) /\ year r = Some max_year).
Proof.
  intros Hgo. pose proof (loaded_row_complete w src) as Hrows.
  destruct (fst (load_data w src)) as [|r0 d0] eqn:Hd; [discriminate|].
  rewrite <- Hd in *.
  assert (Hr0 : r0 ∈ fst (load_data w src)) by (rewrite Hd; left).
  destruct (Hrows r0 Hr0) as ([y0 Hy0] & _).
  destruct (year_span_defined _ r0 y0 Hr0 Hy0) as (lo & hi & Hspan).
  exists lo, hi. split; [assumption|].
  split; [now apply year_span_ordered in Hspan|].
  split; [|now apply year_span_attained].
  intros r Hr. destruct (Hrows r Hr) as ([y Hy] & _).
  exists y. split; [assumption|]. eapply year_span_bounds; eassumption.
Qed.

Lemma sidebar_year_bounds_witness :
  exists min_year max_year,
    year_span (fst (load_data sample_world KaggleDataset)) = Some (min_year, max_year) /\
    min_year <= max_year /\
    (forall r, r ∈ fst (load_data sample_world KaggleDataset) ->
       exists y, year r = Some y /\ min_year <= y <= max_year) /\
    (exists r, r ∈ fst (load_data sample_world KaggleDataset) /\ year r = Some min_year) /\
    (exists r, r ∈ fst (load_data sample_world KaggleDataset) /\ year r = Some max_year).
Proof.
  apply sidebar_year_bounds. vm_compute. reflexivity.
Defined.

(** ** The genre select box *)

#[export] Instance str_le_total : Total str_le.
Proof. intros a b. apply String.leb_total. Qed.

#[export] Instance str_le_trans : Transitive str_le.
Proof.
  unfold str_le, String.leb. intros a.
  induction a as [|x a IH]; intros [|y b] [|z c]; simpl; try congruence.
  unfold Ascii.compare.
  destruct (N.compare_spec (N_of_ascii x) (N_of_ascii y)) as [Hxy|Hxy|Hxy];
    destruct (N.compare_spec (N_of_ascii y) (N_of_ascii z)) as [Hyz|Hyz|Hyz];
    try congruence; intros H1 H2.
  - rewrite Hxy, Hyz, N.compare_refl. now apply IH with b.
  - rewrite Hxy. now apply N.compare_lt_iff in Hyz as ->.
  - rewrite <- Hyz. now apply N.compare_lt_iff in Hxy as ->.
  - assert (Hxz : (N_of_ascii x < N_of_ascii z)%N) by lia.
    now apply N.compare_lt_iff in Hxz as ->.
Qed.

Lemma StronglySorted_sublist {A} (R : relation A) (k l : list A) :
  k `sublist_of` l -> StronglySorted R l -> StronglySorted R k.
Proof.
  induction 1 as [|x k l Hsub IH|x k l Hsub IH]; intros Hsorted.
  - constructor.
  - apply StronglySorted_cons in Hsorted as [Hall Hs].
    apply StronglySorted_cons. split; [|now apply IH].
    apply Forall_forall. intros y Hy.
    rewrite Forall_forall in Hall. apply Hall. eapply elem_of_sublist; eassumption.
  - apply StronglySorted_cons in Hsorted as [_ Hs]. now apply IH.
Qed.

Lemma flatten_genres_none cells :
  flatten_genres cells = None <-> None ∈ cells.
Proof.
  induction cells as [|[tags|] cells IH]; simpl.
  - split; [discriminate | intros H; inversion H].
  - destruct (flatten_genres cells).
    + split; [discriminate|]. intros H.
      apply elem_of_cons in H as [H|H]; [discriminate|].
      apply IH in H. discriminate.
    + split; [|reflexivity]. intros _. right. now apply IH.
  - split; [intros _; left | reflexivity].
Qed.

Lemma flatten_genres_some cells tags g :
  flatten_genres cells = Some tags ->
  g ∈ tags <-> exists l, Some l ∈ cells /\ g ∈ l.
Proof.
  revert tags. induction cells as [|[l0|] cells IH]; simpl; intros tags Htags.
  - injection Htags as <-. split; [intros H; inversion H|].
    intros (l & H & _). inversion H.
  - destruct (flatten_genres cells) as [more|]; [|discriminate].
    injection Htags as <-. rewrite elem_of_app, (IH more eq_refl). split.
    + intros [H | (l & Hl & Hg)].
      * exists l0. split; [left | assumption].
      * exists l. split; [now right | assumption].
    + intros (l & Hl & Hg). apply elem_of_cons in Hl as [[= ->] | Hl]; [now left|].
      right. eauto.
  - discriminate.
Qed.

Lemma sorted_set_spec tags :
  NoDup (sorted_set tags) /\ StronglySorted str_le (sorted_set tags) /\
  forall g, g ∈ sorted_set tags <-> g ∈ tags.
Proof.
  unfold sorted_set. split; [|split].
  - rewrite merge_sort_Permutation. apply NoDup_remove_dups.
  - apply StronglySorted_merge_sort; apply _.
  - intros g. rewrite merge_sort_Permutation. apply elem_of_remove_dups.
Qed.

Lemma list_remove_sublist x l : list_remove x l `sublist_of` l.
Proof.
  induction l as [|y l IH]; simpl; [constructor|].
  destruct (String.eqb y x); [now constructor | now constructor].
Qed.

Lemma list_remove_elem x l g :
  NoDup l -> g ∈ list_remove x l <-> g <> x /\ g ∈ l.
Proof.
  induction 1 as [|y l Hy Hnd IH]; simpl.
  - split; [intros H; inversion H | intros [_ H]; inversion H].
  - destruct (String.eqb_spec y x) as [->|Hne].
    + rewrite elem_of_cons. split.
      * intros Hg. split; [congruence | now right].
      * intros [Hgx [Hg|Hg]]; [contradiction | assumption].
    + rewrite !elem_of_cons, IH. split.
      * intros [-> | [Hgx Hg]]; split; auto.
      * intros [Hgx [-> | Hg]]; auto.
Qed.

Lemma all_genres_none d :
  all_genres d = None <-> exists r, r ∈ d /\ genres_list r = None.
Proof.
  unfold all_genres.
  destruct (flatten_genres (map genres_list d)) as [tags|] eqn:Hflat.
  - split; [discriminate|]. intros (r & Hr & Hnone).
    assert (Hin : None ∈ map genres_list d).
    { rewrite <- Hnone. now apply (list_elem_of_fmap_2 genres_list). }
    apply flatten_genres_none in Hin. congruence.
  - split; [intros _ | reflexivity].
    apply flatten_genres_none in Hflat.
    apply list_elem_of_fmap in Hflat as (r & Hnone & Hr). eauto.
Qed.

Lemma all_genres_some d gs :
  all_genres d = Some gs ->
  NoDup gs /\ StronglySorted str_le gs /\
  forall g, g ∈ gs <->
            g <> NO_GENRES /\
            exists r tags, r ∈ d /\ genres_list r = Some tags /\ g ∈ tags.
Proof.
  unfold all_genres. intros Hgs.
  destruct (flatten_genres (map genres_list d)) as [tags|] eqn:Hflat; [|discriminate].
  destruct (sorted_set_spec tags) as (Hnd & Hsorted & Helem).
  remember (existsb (String.eqb NO_GENRES) (sorted_set tags)) as has eqn:Hhas.
  symmetry in Hhas.
  assert (Heq : gs = if has then list_remove NO_GENRES (sorted_set tags)
                     else sorted_set tags) by congruence.
  clear Hgs. subst gs.
  assert (Htags : forall g, g ∈ tags <->
            exists r l, r ∈ d /\ genres_list r = Some l /\ g ∈ l).
  { intros g. rewrite (flatten_genres_some _ _ g Hflat). split.
    - intros (l & Hl & Hg). apply list_elem_of_fmap in Hl as (r & Hrl & Hr). eauto.
    - intros (r & l & Hr & Hl & Hg). exists l. split; [|assumption].
      rewrite <- Hl. now apply (list_elem_of_fmap_2 genres_list). }
  destruct has.
  - split; [exact (sublist_NoDup _ _ Hnd (list_remove_sublist _ _))|].
    split; [eapply StronglySorted_sublist; [apply list_remove_sublist | assumption]|].
    intros g. now rewrite list_remove_elem, Helem, Htags.
  - split; [assumption|]. split; [assumption|].
    intros g. rewrite Helem, Htags. split; [|tauto].
    intros Hg. split; [|assumption]. intros ->.
    apply Htags, Helem in Hg.
    assert (existsb (String.eqb NO_GENRES) (sorted_set tags) = true); [|congruence].
    apply existsb_exists. exists NO_GENRES.
    split; [now apply list_elem_of_In | apply String.eqb_refl].
Qed.

(** X8: The entries of the genre select box.  Building them fails (an uncaught
    TypeError) exactly when some row of the catalogue has no genre list.
    Otherwise the box offers "Any" followed by every tag that occurs in the
    genre list of some row, except the tag "no genres listed", each tag
    once and in ascending order. *)
Theorem genre_options_spec d :
  (genre_options d = None <-> exists r, r ∈ d /\ genres_list r = None) /\
  (forall options, genre_options d = Some options ->
     exists gs, options = ANY :: gs /\
       NoDup gs /\ StronglySorted str_le gs /\
       forall g, g ∈ gs <->
                 g <> NO_GENRES /\
                 exists r tags, r ∈ d /\ genres_list r = Some tags /\ g ∈ tags).
Proof.
  unfold genre_options. split.
  - rewrite <- all_genres_none. now destruct (all_genres d).
  - intros options Hopt. destruct (all_genres d) as [gs|] eqn:Hgs; [|discriminate].
    injection Hopt as <-. exists gs. split; [reflexivity|].
    now apply all_genres_some.
Qed.

Lemma genre_options_spec_witness :
  genre_options catalog_with_gap = None.
Proof.
  apply genre_options_spec.
  eexists. split; [right; left | reflexivity].
Defined.

(** ** The year in the title *)



(** ** Genre list, caption and search links *)

(** Replacing the separator by a text is splitting at the separator and
    joining the fields with that text. *)
Lemma str_replace_join sep new s :
  str_replace sep new s = join_with new (Text.split sep s).
Proof.
  induction s as [|c rest IH]; simpl; [reflexivity|].
  pose proof (split_nonempty sep rest) as Hnil.
  destruct (Ascii.eqb c sep).
  - destruct (Text.split sep rest) as [|w ws]; [contradiction|].
    now rewrite IH.
  - destruct (Text.split sep rest) as [|w ws]; [contradiction|].
    rewrite IH. now destruct ws.
Qed.

(** X11: For every film of a loaded catalogue whose genres cell holds text: the
    genre list is not empty, none of its tags contains a pipe, and joining
    the tags with pipes gives the genres text back. *)
Theorem genres_list_round_trip w src r s :
  r ∈ fst (load_data w src) ->
  genres r = Some s ->
  exists tags,
    genres_list r = Some tags /\ tags <> [] /\
    Text.join PIPE tags = s /\
    forall tag, tag ∈ tags -> contains PIPE tag = false.
Proof.
  intros Hr Hs. destruct (loaded_row_complete w src r Hr) as (_ & _ & Hlist).
  rewrite Hs in Hlist. exists (Text.split PIPE s).
  split; [assumption|]. split; [apply split_nonempty|].
  split; [apply join_split|]. intros tag. apply split_fields_no_sep.
Qed.

Lemma genres_list_round_trip_witness :
  exists tags,
    genres_list toy_story_row = Some tags /\ tags <> [] /\
    Text.join PIPE tags = "Action|Comedy" /\
    forall tag, tag ∈ tags -> contains PIPE tag = false.
Proof.
  apply (genres_list_round_trip sample_world KaggleDataset).
  - vm_compute. left.
  - reflexivity.
Defined.

(** X12: The genre part of the caption of a film of a loaded catalogue is the
    tags of its genre list, in order, separated by a comma and a space; it
    is missing (the caption fails) exactly when the genre list is. *)
Theorem caption_lists_genre_tags w src r :
  r ∈ fst (load_data w src) ->
  genres_caption r = join_with ", " <$> genres_list r.
Proof.
  intros Hr. destruct (loaded_row_complete w src r Hr) as (_ & _ & ->).
  unfold genres_caption, split_genres.
  destruct (genres r) as [s|]; simpl; [|reflexivity].
  now rewrite str_replace_join.
Qed.

Lemma caption_lists_genre_tags_witness :
  genres_caption godfather_row = join_with ", " <$> genres_list godfather_row.
Proof.
  apply (caption_lists_genre_tags offline_world DemoData).
  vm_compute. do 10 right. left.
Defined.






(** ** Averages of the external catalogue *)










(** ** The catalogue against the movies table *)

Lemma merged_follows_movies avg ms :
  map (fun r => (movieId r, title r, genres r)) (dropna (omap (merge_row avg) ms))
  `sublist_of` map (fun m => (Some (raw_movieId m), raw_title m, raw_genres m)) ms.
Proof.
  induction ms as [|m ms IH]; [constructor|].
  cbn [omap list_omap]. unfold merge_row at 1.
  destruct (avg !! raw_movieId m) as [a|]; cbn [mbind option_bind].
  - unfold dropna. cbn [List.filter map].
    match goal with |- context [if ?b then _ else _] => destruct b end.
    + cbn [map movieId title genres]. now constructor.
    + now constructor.
  - now constructor.
Qed.

(** X16: The external catalogue follows the movies table: its records carry the
    id, title and genres of rows of the table in the order of the table,
    at most one record per row.  So it has no more records than the table
    has rows, and when the ids of the table are distinct, so are the ids
    and the records of the catalogue. *)
Theorem catalog_follows_movies_table movies ratings :
  map (fun r => (movieId r, title r, genres r)) (process_kaggle movies ratings)
    `sublist_of`
    map (fun m => (Some (raw_movieId m), raw_title m, raw_genres m)) (movie_rows movies) /\
  (length (process_kaggle movies ratings) <= length (movie_rows movies))%nat /\
  (NoDup (map raw_movieId (movie_rows movies)) ->
   NoDup (map movieId (process_kaggle movies ratings)) /\
   NoDup (process_kaggle movies ratings)).
Proof.
  assert (Hsub :
    map (fun r => (movieId r, title r, genres r)) (process_kaggle movies ratings)
    `sublist_of`
    map (fun m => (Some (raw_movieId m), raw_title m, raw_genres m)) (movie_rows movies)).
  { unfold process_kaggle. destruct (has_overview_column movies).
    - apply merged_follows_movies.
    - rewrite map_map. simpl. apply merged_follows_movies. }
  split; [assumption|]. split.
  - apply sublist_length in Hsub. now rewrite !length_map in Hsub.
  - intros Hnd.
    assert (Hids : NoDup (map movieId (process_kaggle movies ratings))).
    { apply (fmap_sublist (fun t => fst (fst t))) in Hsub.
      rewrite <- !list_fmap_compose in Hsub.
      eapply sublist_NoDup; [|exact Hsub].
      change (NoDup ((Some ∘ raw_movieId) <$> movie_rows movies)).
      rewrite list_fmap_compose. apply (NoDup_fmap_2 Some). exact Hnd. }
    split; [assumption | now apply (NoDup_fmap_1 movieId)].
Qed.

Lemma catalog_follows_movies_table_witness :
  NoDup (map movieId (process_kaggle sample_movies sample_ratings)) /\
  NoDup (process_kaggle sample_movies sample_ratings).
Proof.
  apply catalog_follows_movies_table.
  apply (bool_decide_unpack (NoDup (map raw_movieId (movie_rows sample_movies)))).
  vm_compute. exact I.
Defined.

(** ** Select box and filter together *)

(** X9: No entry of the genre select box is dead: on a catalogue whose rows all
    have a year and a rating, every offered genre finds at least one film
    when the minimum rating is not above any rating and the years span the
    whole catalogue. *)
Theorem offered_genre_finds_a_film d options g m span :
  genre_options d = Some options ->
  g ∈ options ->
  d <> [] ->
  year_span d = Some span ->
  (forall r, r ∈ d -> is_Some (year r)) ->
  (forall r, r ∈ d -> exists a, avg_rating r = Some a /\ (m <= a)%Q) ->
  filter_catalog {| selected_genre := g; min_rating := m; selected_years := span |} d
  <> [].
Proof.
  intros Hopt Hg Hne Hspan Hyear Hrating.
  unfold genre_options in Hopt.
  destruct (all_genres d) as [gs|] eqn:Hgs; [|discriminate].
  injection Hopt as <-. destruct span as [lo hi].
  assert (Hpass : exists r, r ∈ d /\
            genre_pred {| selected_genre := g; min_rating := m;
                          selected_years := (lo, hi) |} r = true).
  { apply elem_of_cons in Hg as [-> | Hg].
    - destruct d as [|r0 d0]; [contradiction|]. exists r0. split; [left|].
      apply genre_pred_spec. now left.
    - apply (all_genres_some d gs Hgs) in Hg as (_ & r & tags & Hr & Htags & Hin).
      exists r. split; [assumption|]. apply genre_pred_spec. right. eauto. }
  destruct Hpass as (r & Hr & Hgenre).
  assert (Hin : r ∈ filter_catalog {| selected_genre := g; min_rating := m;
                                      selected_years := (lo, hi) |} d).
  { rewrite filter_catalog_eq. apply In_elem_of_filter. split; [assumption|].
    rewrite !andb_true_iff. split; [split|]; [| |assumption].
    - apply rating_ok_spec. simpl. auto.
    - apply year_pred_spec. simpl. destruct (Hyear r Hr) as [y Hy].
      exists y. split; [assumption|]. eapply year_span_bounds; eassumption. }
  intros Hnil. rewrite Hnil in Hin. inversion Hin.
Qed.

Lemma offered_genre_finds_a_film_witness :
  filter_catalog {| selected_genre := "Music"; min_rating := 8;
                    selected_years := (1972, 2022) |} load_mock_data <> [].
Proof.
  apply (offered_genre_finds_a_film load_mock_data
           ["Any"; "Action"; "Adventure"; "Animation"; "Biography"; "Comedy";
            "Crime"; "Drama"; "Family"; "History"; "Music"; "Romance";
            "Sci-Fi"; "Thriller"]).
  - vm_compute. reflexivity.
  - do 10 right. left.
  - discriminate.
  - reflexivity.
  - apply Forall_forall. vm_compute. repeat (constructor; [eexists; reflexivity|]).
    constructor.
  - apply Forall_forall. unfold load_mock_data, MOCK_MOVIES. simpl.
    repeat (constructor; [eexists; split; [reflexivity | discriminate]|]).
    constructor.
Defined.
